(** * A shallow embedding of the [config] package

    The package keeps a [map[string]interface{}] in memory, loads it from and
    saves it to one file (a JSON codec and a [key=value] line codec), and
    layers typed accessors [Key[T]] and [TimeKey] over the untyped store.

    Modelling decisions, all visible in the definitions below:
    - a Go [string] is a byte sequence: Rocq's [string];
    - an [interface{}] value is [value]: [VNil] or a payload tagged with its
      dynamic type (an optional type name and a kind);
    - [map[string]interface{}] is a [gmap string value]; the order of a Go
      [range] over a map is unspecified, so the writer takes the order as an
      explicit argument, constrained to be a permutation of the entries;
    - the file system is an explicit state threaded through [os.Open],
      [os.Create] and [File.Write];
    - a run-time panic is the outcome [Panic];
    - the readers-writer lock is not modelled: every operation takes and
      releases it around its body, and the embedding is sequential;
    - functions of Go's standard library whose algorithms are outside the
      package ([strconv.ParseFloat], the float verb of [fmt], [encoding/json],
      [time.Time.UnmarshalText], out-of-range float-to-integer conversion) are
      the fields of the class [GoLib]; the properties hold for every instance;
    - [int], [uint] and [uintptr] have 64 bits; floats are [spec_float]s of
      the binary32 and binary64 formats; defined types have no methods, so
      the verb [%v] prints a value by its kind; a nil slice or map is not
      told apart from an empty one.

    The source holds two generations of the typed keys. The modules [Key] and
    [TimeKey] follow the later one, [Key[T]] with a [Default] field and the
    method [Sync]; [Key1] and [TimeKey1] follow the earlier one. *)

From Stdlib Require Import ZArith String Ascii List Lia.
From Stdlib Require Import Floats.SpecFloat.
From stdpp Require Import gmap strings list fin_maps pretty.

Set Warnings "-register-all".
Local Open Scope Z_scope.

(** ** Outcomes of code that may panic *)

Inductive outcome (A : Type) : Type :=
| Ret (a : A)
| Panic.
Arguments Ret {A} a.
Arguments Panic {A}.

(** ** Dynamic types and values *)

Module reflect.

(** The integer kinds of [reflect.Kind]. *)
Inductive IntKind :=
| Int | Int8 | Int16 | Int32 | Int64
| Uint | Uint8 | Uint16 | Uint32 | Uint64 | Uintptr.

Inductive FloatKind := Float32 | Float64.

(** The kinds the store can hold in this model. [Slice] is
    [[]interface{}], [Map] is [map[string]interface{}] and [Struct] is
    [time.Time]. *)
Inductive Kind :=
| Bool
| Integer (k : IntKind)
| Float (k : FloatKind)
| String
| Slice
| Map
| Struct.

(** A type: the name of a defined type ([None] for a predeclared type or a
    type literal) and its kind. *)
Record rtype := MkType { Name : option string; kind : Kind }.

#[global] Instance IntKind_eq_dec : EqDecision IntKind.
Proof. solve_decision. Defined.
#[global] Instance FloatKind_eq_dec : EqDecision FloatKind.
Proof. solve_decision. Defined.
#[global] Instance Kind_eq_dec : EqDecision Kind.
Proof. solve_decision. Defined.
#[global] Instance rtype_eq_dec : EqDecision rtype.
Proof. solve_decision. Defined.

Definition signed (k : IntKind) : bool :=
  match k with
  | Int | Int8 | Int16 | Int32 | Int64 => true
  | _ => false
  end.

(** Sizes in bits, on a 64-bit platform. *)
Definition bits (k : IntKind) : Z :=
  match k with
  | Int8 | Uint8 => 8
  | Int16 | Uint16 => 16
  | Int32 | Uint32 => 32
  | Int | Int64 | Uint | Uint64 | Uintptr => 64
  end.

End reflect.

(** [time.Time]: seconds and nanoseconds since the Unix epoch and the zone
    offset in seconds. *)
Record Time := { sec : Z; nsec : Z; offset : Z }.

(** The zero [time.Time]: January 1, year 1, 00:00:00 UTC. *)
Definition zeroTime : Time := {| sec := -62135596800; nsec := 0; offset := 0 |}.

#[global] Instance Time_eq_dec : EqDecision Time.
Proof. solve_decision. Defined.

#[global] Instance spec_float_eq_dec : EqDecision spec_float.
Proof. solve_decision. Defined.

(** An [interface{}] value. The first argument of a constructor is the name
    of the value's dynamic type when that is a defined type. *)
Inductive value :=
| VNil
| VBool (n : option string) (b : bool)
| VInt (n : option string) (k : reflect.IntKind) (z : Z)
| VFloat (n : option string) (k : reflect.FloatKind) (f : spec_float)
| VString (n : option string) (s : string)
| VSlice (n : option string) (l : list value)
| VMap (n : option string) (m : gmap string value)
| VTime (t : Time).

(** Errors. *)
Inductive error :=
| ErrKeyNotFound
| ErrCast (wanted : reflect.rtype) (got : option reflect.rtype)
| ErrSyntax (fn : string) (s : string)
| ErrRange (fn : string) (s : string)
| ErrTooLong
| ENOENT (path : string)
| EACCES (path : string)
| ENOSPC (path : string)
| ErrJSON (msg : string)
| ErrTime (msg : string).

(** ** The standard library functions the package calls *)

(** Functions of Go's standard library whose algorithms are not part of the
    package. [ParseFloat s] is [strconv.ParseFloat(s, 64)]; [FormatFloat k f]
    is what the verb [%v] prints for a float of kind [k];
    [json_Decode data] is the map and the error left by
    [json.NewDecoder(f).Decode(&m)] on a file holding [data], for [m]
    initially empty; [json_Marshal m] is the text [json.Encoder.Encode]
    produces for [m] (without the final newline), or its error;
    [UnmarshalText] is [time.Time.UnmarshalText]; the last two fields give
    the implementation-dependent result of converting a float that the
    integer type cannot represent. *)
Class GoLib := {
  ParseFloat : string → spec_float + error;
  FormatFloat : reflect.FloatKind → spec_float → string;
  json_Decode : string → gmap string value * option error;
  json_Marshal : gmap string value → string + error;
  UnmarshalText : string → Time + error;
  float_to_int64_unrepresentable : spec_float → Z;
  float_to_uint64_unrepresentable : spec_float → Z;
}.

Module strconv.

(** [strconv.ParseBool]: accepts 1, t, T, TRUE, true, True, 0, f, F, FALSE,
    false, False; any other value is a syntax error. *)
Definition ParseBool (str : string) : bool + error :=
  if bool_decide (str ∈ ["1"; "t"; "T"; "true"; "TRUE"; "True"]%string) then inl true
  else if bool_decide (str ∈ ["0"; "f"; "F"; "false"; "FALSE"; "False"]%string) then inl false
  else inr (ErrSyntax "ParseBool" str).

Definition FormatBool (b : bool) : string :=
  if b then "true"%string else "false"%string.

End strconv.

Module utf8.

Definition byte (z : Z) : ascii := ascii_of_N (Z.to_N z).

Definition RuneError : Z := 65533.

(** [utf8.AppendRune] on an empty buffer: the UTF-8 encoding of [r], and that
    of U+FFFD for a surrogate or out-of-range rune. *)
Definition encode_valid (r : Z) : string :=
  if r <? 128 then String (byte r) EmptyString
  else if r <? 2048 then
    String (byte (192 + r / 64)) (String (byte (128 + r mod 64)) EmptyString)
  else if r <? 65536 then
    String (byte (224 + r / 4096))
      (String (byte (128 + (r / 64) mod 64)) (String (byte (128 + r mod 64)) EmptyString))
  else
    String (byte (240 + r / 262144))
      (String (byte (128 + (r / 4096) mod 64))
         (String (byte (128 + (r / 64) mod 64)) (String (byte (128 + r mod 64)) EmptyString))).

Definition EncodeRune (r : Z) : string :=
  if (r <? 0) || (1114111 <? r) || ((55296 <=? r) && (r <=? 57343))
  then encode_valid RuneError
  else encode_valid r.

End utf8.

(** ** Reflection on values *)

Module Value.
Import reflect.

(** [reflect.TypeOf]: the dynamic type, [None] for the nil interface. *)
Definition TypeOf (v : value) : option rtype :=
  match v with
  | VNil => None
  | VBool n _ => Some (MkType n Bool)
  | VInt n k _ => Some (MkType n (Integer k))
  | VFloat n k _ => Some (MkType n (Float k))
  | VString n _ => Some (MkType n String)
  | VSlice n _ => Some (MkType n Slice)
  | VMap n _ => Some (MkType n Map)
  | VTime _ => Some (MkType (Some "time.Time"%string) Struct)
  end.

(** The zero value of a type ([var ret T]). *)
Definition Zero (t : rtype) : value :=
  match kind t with
  | Bool => VBool (Name t) false
  | Integer k => VInt (Name t) k 0
  | Float k => VFloat (Name t) k (S754_zero false)
  | String => VString (Name t) EmptyString
  | Slice => VSlice (Name t) []
  | Map => VMap (Name t) ∅
  | Struct => VTime zeroTime
  end.

(** Two's complement truncation to the width of [k] ([makeInt]). *)
Definition wrap (k : IntKind) (z : Z) : Z :=
  let m := 2 ^ bits k in
  if signed k then (z + m / 2) mod m - m / 2 else z mod m.

(** The integer part of a finite float. *)
Definition trunc (f : spec_float) : option Z :=
  match f with
  | S754_zero _ => Some 0
  | S754_finite s m e =>
      let a := if 0 <=? e then Z.pos m * 2 ^ e else Z.pos m / 2 ^ (- e) in
      Some (if s then - a else a)
  | _ => None
  end.

(** [int64(f)] and [uint64(f)]. *)
Definition float_to_int64 `{GoLib} (f : spec_float) : Z :=
  match trunc f with
  | Some z =>
      if (- 2 ^ 63 <=? z) && (z <? 2 ^ 63) then z else float_to_int64_unrepresentable f
  | None => float_to_int64_unrepresentable f
  end.

Definition float_to_uint64 `{GoLib} (f : spec_float) : Z :=
  match trunc f with
  | Some z =>
      if (0 <=? z) && (z <? 2 ^ 64) then z else float_to_uint64_unrepresentable f
  | None => float_to_uint64_unrepresentable f
  end.

(** [float64(z)], rounding to nearest even. *)
Definition float64_of_Z (z : Z) : spec_float := binary_normalize 53 1024 z 0 false.

(** [makeFloat]: a [float64] stored in a float of kind [k]. *)
Definition makeFloat (k : FloatKind) (f : spec_float) : spec_float :=
  match k, f with
  | Float32, S754_finite s m e => binary_round 24 128 s m e
  | _, _ => f
  end.

(** [cvtIntString] and [cvtUintString]: [string(rune(x))] when [x] fits a
    rune, U+FFFD otherwise. *)
Definition cvtIntString (z : Z) : string :=
  if (- 2 ^ 31 <=? z) && (z <? 2 ^ 31) then utf8.EncodeRune z
  else utf8.EncodeRune utf8.RuneError.

(** [Type.ConvertibleTo] on kinds: integers convert to integers, floats and
    strings; floats to integers and floats; otherwise the underlying types
    must be identical. *)
Definition ConvertibleTo (src dst : rtype) : bool :=
  match kind src, kind dst with
  | Integer _, (Integer _ | Float _ | String) => true
  | Float _, (Integer _ | Float _) => true
  | Struct, Struct => bool_decide (src = dst)
  | ks, kd => bool_decide (ks = kd)
  end.

(** [Value.CanConvert]: panics on the zero [Value], which is what
    [reflect.ValueOf] returns for the nil interface. *)
Definition CanConvert (v : value) (t : rtype) : outcome bool :=
  match TypeOf v with
  | None => Panic
  | Some vt => Ret (ConvertibleTo vt t)
  end.

(** [Value.Convert(t).Interface()], for [v] and [t] with [CanConvert]. *)
Definition Convert `{GoLib} (v : value) (t : rtype) : value :=
  let n := Name t in
  match v, kind t with
  | VInt _ _ z, Integer k' => VInt n k' (wrap k' z)
  | VInt _ _ z, Float k' => VFloat n k' (makeFloat k' (float64_of_Z z))
  | VInt _ _ z, String => VString n (cvtIntString z)
  | VFloat _ _ f, Integer k' =>
      VInt n k' (wrap k' (if signed k' then float_to_int64 f else float_to_uint64 f))
  | VFloat _ _ f, Float k' => VFloat n k' (makeFloat k' f)
  | VBool _ b, Bool => VBool n b
  | VString _ s, String => VString n s
  | VSlice _ l, Slice => VSlice n l
  | VMap _ m, Map => VMap n m
  | _, _ => v
  end.

End Value.

(** ** The store *)

(** [type ConfigType int], with [Json] and [Line] numbered by [iota]. Any
    other integer is a [ConfigType] as well. *)
Definition ConfigType := Z.
Definition Json : ConfigType := 0.
Definition Line : ConfigType := 1.

Module Config.

(** [struct Config] without its lock. *)
Record t := { Config : gmap string value; Filepath : string; Type_ : ConfigType }.

(** [func (c *Config) Get(key string) (interface{}, bool)]: a missing key
    yields the nil interface and [false]. *)
Definition Get (c : t) (key : string) : value * bool :=
  match Config c !! key with
  | Some v => (v, true)
  | None => (VNil, false)
  end.

(** [func (c *Config) Put(key string, val interface{})]. *)
Definition Put (c : t) (key : string) (val : value) : t :=
  {| Config := <[key := val]> (Config c); Filepath := Filepath c; Type_ := Type_ c |}.

(** [func (c *Config) GetCopyOfConfig() map[string]interface{}]: a new map
    holding the same values. *)
Definition GetCopyOfConfig (c : t) : gmap string value :=
  map_fold (λ k v m, <[k := v]> m) ∅ (Config c).

End Config.

(** ** Typed keys *)

(** The constraint [Keyable]. *)
Definition Keyable (t : reflect.rtype) : bool :=
  match reflect.kind t with
  | reflect.Struct => false
  | _ => true
  end.

(** The type assertion [x.(T)] in its one-result form. *)
Definition assert_type (x : value) (t : reflect.rtype) : outcome value :=
  if bool_decide (Value.TypeOf x = Some t) then Ret x else Panic.

Definition bool_t : reflect.rtype := reflect.MkType None reflect.Bool.
Definition string_t : reflect.rtype := reflect.MkType None reflect.String.

Module Key.

(** [type Key[T Keyable] struct { Key string; Default T }]. The type argument
    is the field [T]; [Default_T] is the static typing of [Default]. *)
Record t := {
  T : reflect.rtype;
  Key : string;
  Default : value;
  T_Keyable : Keyable T = true;
  Default_T : Value.TypeOf Default = Some T;
}.

Section methods.
Context `{GoLib}.

(** [func (k Key[T]) Get(c *Config) T]. *)
Definition Get (k : t) (c : Config.t) : outcome value :=
  let ret := Value.Zero (T k) in
  let '(v, ok) := Config.Get c (Key k) in
  if negb ok then Ret (Default k) else
  (* the statements after the type switch *)
  let rest :=
    match Value.CanConvert v (T k) with
    | Panic => Panic
    | Ret true => assert_type (Value.Convert v (T k)) (T k)
    | Ret false => Ret (Default k)
    end in
  if bool_decide (Value.TypeOf v = Some (T k)) then Ret v            (* case T *)
  else match v with
  | VBool None b =>                                                  (* case bool *)
      if bool_decide (reflect.kind (T k) = reflect.String)
      then assert_type (VString None (strconv.FormatBool b)) (T k)
      else rest
  | VString None s =>                                                (* case string *)
      if bool_decide (reflect.kind (T k) = reflect.Bool) then
        match strconv.ParseBool s with
        | inl b => assert_type (VBool None b) (T k)
        | inr _ => rest
        end
      else rest
  | _ => rest
  end.

(** [func (k Key[T]) GetErr(c *Config) (T, error)]. *)
Definition GetErr (k : t) (c : Config.t) : outcome (value * option error) :=
  let ret := Value.Zero (T k) in
  let '(v, ok) := Config.Get c (Key k) in
  if negb ok then Ret (ret, Some ErrKeyNotFound) else
  let rest :=
    match Value.CanConvert v (T k) with
    | Panic => Panic
    | Ret true =>
        match assert_type (Value.Convert v (T k)) (T k) with
        | Ret x => Ret (x, None)
        | Panic => Panic
        end
    | Ret false => Ret (ret, Some (ErrCast (T k) (Value.TypeOf v)))
    end in
  if bool_decide (Value.TypeOf v = Some (T k)) then Ret (v, None)
  else match v with
  | VBool None b =>
      if bool_decide (reflect.kind (T k) = reflect.String) then
        match assert_type (VString None (strconv.FormatBool b)) (T k) with
        | Ret x => Ret (x, None)
        | Panic => Panic
        end
      else rest
  | VString None s =>
      if bool_decide (reflect.kind (T k) = reflect.Bool) then
        match strconv.ParseBool s with
        | inl b =>
            match assert_type (VBool None b) (T k) with
            | Ret x => Ret (x, None)
            | Panic => Panic
            end
        | inr _ => rest
        end
      else rest
  | _ => rest
  end.

(** [func (k Key[T]) Put(c *Config, v T)]. *)
Definition Put (k : t) (c : Config.t) (v : value) : Config.t :=
  Config.Put c (Key k) v.

(** [func (k Key[T]) Sync(c *Config)]: the store after the call and whether
    the call returned. A panic of [GetErr] comes before any write and leaves
    the store as it was. *)
Definition Sync (k : t) (c : Config.t) : Config.t * outcome unit :=
  match GetErr k c with
  | Panic => (c, Panic)
  | Ret (_, Some _) => (Put k c (Default k), Ret tt)
  | Ret (_, None) => (c, Ret tt)
  end.

End methods.
End Key.

(** [func Get[T Getable](config *Config, key string) (T, bool)]. *)
Definition Get (T : reflect.rtype) (config : Config.t) (key : string) : value * bool :=
  let ret := Value.Zero T in
  let '(v, ok) := Config.Get config key in
  if negb ok then (ret, false)
  else if bool_decide (Value.TypeOf v = Some T) then (v, true) else (ret, false).

(** [func GetErr[T Getable](config *Config, key string) (T, error)]. *)
Definition GetErr (T : reflect.rtype) (config : Config.t) (key : string) : value * option error :=
  let ret := Value.Zero T in
  let '(v, ok) := Config.Get config key in
  if negb ok then (ret, Some ErrKeyNotFound)
  else if bool_decide (Value.TypeOf v = Some T) then (v, None)
  else (ret, Some (ErrCast T (Value.TypeOf v))).

(** The accessors [Key[string]{name, d}] and [Key[bool]{name, d}]. *)
Definition string_key (name d : string) : Key.t :=
  {| Key.T := string_t; Key.Key := name; Key.Default := VString None d;
     Key.T_Keyable := eq_refl; Key.Default_T := eq_refl |}.

Definition bool_key (name : string) (d : bool) : Key.t :=
  {| Key.T := bool_t; Key.Key := name; Key.Default := VBool None d;
     Key.T_Keyable := eq_refl; Key.Default_T := eq_refl |}.

(** ** Timestamp keys *)

(** The string held by a value whose static type is [string]. *)
Definition string_of (v : value) : string :=
  match v with
  | VString _ s => s
  | _ => EmptyString
  end.

Module TimeKey.

(** [type TimeKey struct { Key string; Default time.Time }]. *)
Record t := { Key : string; Default : Time }.

(** The [Key[string]] with the name of [k] and the empty string as default. *)
Definition ck (k : t) : Key.t := string_key (Key k) EmptyString.

Section methods.
Context `{GoLib}.

(** [func (k TimeKey) Get(c *Config) time.Time]. *)
Definition Get (k : t) (c : Config.t) : outcome Time :=
  match Key.GetErr (ck k) c with
  | Panic => Panic
  | Ret (_, Some _) => Ret (Default k)
  | Ret (str, None) =>
      match UnmarshalText (string_of str) with
      | inr _ => Ret (Default k)
      | inl t => Ret t
      end
  end.

(** [func (k TimeKey) GetErr(c *Config) (time.Time, error)]. *)
Definition GetErr (k : t) (c : Config.t) : outcome (Time * option error) :=
  match Key.GetErr (ck k) c with
  | Panic => Panic
  | Ret (_, Some err) => Ret (zeroTime, Some err)
  | Ret (str, None) =>
      match UnmarshalText (string_of str) with
      | inr err => Ret (zeroTime, Some err)
      | inl t => Ret (t, None)
      end
  end.

(** [func (k TimeKey) Put(c *Config, v time.Time)]: the [time.Time] itself is
    boxed and stored. *)
Definition Put (k : t) (c : Config.t) (v : Time) : Config.t :=
  Config.Put c (Key k) (VTime v).

End methods.
End TimeKey.

(** ** The file system *)

Module os.

(** The files by path, the paths that cannot be opened or created, and the
    number of bytes the device can still take. *)
Record FileSys := { files : gmap string string; denied : gset string; free : nat }.

(** [os.Open]: the content of the file, read in full by the callers. *)
Definition Open (fs : FileSys) (name : string) : string + error :=
  match files fs !! name with
  | None => inr (ENOENT name)
  | Some data => if bool_decide (name ∈ denied fs) then inr (EACCES name) else inl data
  end.

Definition IsNotExist (err : error) : bool :=
  match err with
  | ENOENT _ => true
  | _ => false
  end.

(** [os.Create]: creates or truncates the file. *)
Definition Create (fs : FileSys) (name : string) : FileSys * option error :=
  if bool_decide (name ∈ denied fs) then (fs, Some (EACCES name))
  else ({| files := <[name := EmptyString]> (files fs); denied := denied fs; free := free fs |},
        None).

Definition append_file (fs : FileSys) (name : string) (b : string) : FileSys :=
  {| files := <[name := (default EmptyString (files fs !! name) +:+ b)%string]> (files fs);
     denied := denied fs;
     free := (free fs - String.length b)%nat |}.

(** [File.Write]: appends; when the device is full the bytes that fit are
    written and the error is [ENOSPC]. *)
Definition Write (fs : FileSys) (name : string) (b : string) : FileSys * option error :=
  if (String.length b <=? free fs)%nat then (append_file fs name b, None)
  else (append_file fs name (String.substring 0 (free fs) b), Some (ENOSPC name)).

End os.

(** ** Strings, scanning and formatting *)

Module gostrings.

(** [strings.HasPrefix]. *)
Fixpoint HasPrefix (s prefix : string) : bool :=
  match prefix, s with
  | EmptyString, _ => true
  | String p prefix', String a s' => Ascii.eqb a p && HasPrefix s' prefix'
  | String _ _, EmptyString => false
  end.

(** [strings.SplitN(s, sep, 2)] for a one-byte separator [sep]: the text
    before and after the first [sep], or [s] alone when it has none. *)
Fixpoint SplitN2 (s : string) (sep : ascii) : list string :=
  match s with
  | EmptyString => [EmptyString]
  | String a s' =>
      if Ascii.eqb a sep then [EmptyString; s']
      else match SplitN2 s' sep with
           | [x] => [String a x]
           | x :: r => String a x :: r
           | [] => []
           end
  end.

End gostrings.

Module bufio.

Definition MaxScanTokenSize : Z := 65536.

Definition LF : ascii := ascii_of_nat 10.
Definition CR : ascii := ascii_of_nat 13.

(** [dropCR]: drops a final carriage return. *)
Fixpoint dropCR (data : string) : string :=
  match data with
  | EmptyString => EmptyString
  | String a EmptyString => if Ascii.eqb a CR then EmptyString else data
  | String a s => String a (dropCR s)
  end.

(** The tokens a [Scanner] with the split function [ScanLines] and the
    default buffer yields on [data], and [Scanner.Err] once [Scan] has
    returned false. [cur] is the part of the current line already read. A
    line that fills the buffer before its end is found stops the scan with
    [ErrTooLong]. *)
Fixpoint scan_from (cur : string) (data : string) : list string * option error :=
  match data with
  | EmptyString =>
      if bool_decide (cur = EmptyString) then ([], None)
      else if MaxScanTokenSize <=? Z.of_nat (String.length cur) then ([], Some ErrTooLong)
      else ([dropCR cur], None)
  | String a rest =>
      if Ascii.eqb a LF then
        if MaxScanTokenSize <=? Z.of_nat (String.length cur) then ([], Some ErrTooLong)
        else let '(toks, err) := scan_from EmptyString rest in (dropCR cur :: toks, err)
      else scan_from (cur +:+ String a EmptyString) rest
  end.

Definition ScanLines (data : string) : list string * option error :=
  scan_from EmptyString data.

End bufio.

Module fmt.

(** What the verb [%v] prints for a scalar; [None] for the kinds the package
    never formats. *)
Definition Sprint `{GoLib} (v : value) : option string :=
  match v with
  | VBool _ b => Some (strconv.FormatBool b)
  | VInt _ _ z => Some (pretty z)
  | VFloat _ k f => Some (FormatFloat k f)
  | VString _ s => Some s
  | _ => None
  end.

End fmt.

(** ** The codecs *)

Section codecs.
Context `{GoLib}.

(** [func parseFileJSON(f *os.File) (map[string]interface{}, error)], on the
    content of [f]. *)
Definition parseFileJSON (f : string) : gmap string value * option error :=
  json_Decode f.

(** The body of the scanning loop of [parseFileLine] for one token. *)
Definition parseLine (m : gmap string value) (token : string) : gmap string value :=
  if gostrings.HasPrefix token "#" then m
  else match gostrings.SplitN2 token "=" with
       | [sp0; sp1] =>
           match ParseFloat sp1 with
           | inl f => <[sp0 := VFloat None reflect.Float64 f]> m
           | inr _ => <[sp0 := VString None sp1]> m
           end
       | _ => m
       end.

(** [func parseFileLine(f *os.File) (map[string]interface{}, error)], on the
    content of [f]. *)
Definition parseFileLine (f : string) : gmap string value * option error :=
  let '(tokens, err) := bufio.ScanLines f in
  (foldl parseLine ∅ tokens, err).

(** [func writeFileJSON(f *os.File, m map[string]interface{}) error]. *)
Definition writeFileJSON (fs : os.FileSys) (f : string) (m : gmap string value)
  : os.FileSys * option error :=
  match json_Marshal m with
  | inr err => (fs, Some err)
  | inl b => os.Write fs f (b +:+ String bufio.LF EmptyString)
  end.

(** The kinds [writeFileLine] writes; the others are skipped. *)
Definition line_kind (k : reflect.Kind) : bool :=
  match k with
  | reflect.Integer _ | reflect.Float _ | reflect.String | reflect.Bool => true
  | _ => false
  end.

(** [fmt.Sprintf] with the format [%v=%v] and a final newline. *)
Definition Sprintf_line (k : string) (v : value) : string :=
  (k +:+ "=" +:+ default EmptyString (fmt.Sprint v) +:+ String bufio.LF EmptyString)%string.

(** [func writeFileLine(f *os.File, m map[string]interface{}) error], the
    loop running over the entries in the order [entries]. [reflect.TypeOf] of
    a nil interface is nil and its [Kind] method panics. The result of
    [f.Write] is dropped. *)
Fixpoint writeFileLine (fs : os.FileSys) (f : string) (entries : list (string * value))
  : os.FileSys * outcome (option error) :=
  match entries with
  | [] => (fs, Ret None)
  | (k, v) :: entries' =>
      match Value.TypeOf v with
      | None => (fs, Panic)
      | Some rt =>
          if line_kind (reflect.kind rt)
          then writeFileLine (fst (os.Write fs f (Sprintf_line k v))) f entries'
          else writeFileLine fs f entries'
      end
  end.

(** [func LoadConfigFile(filepath string, configType ConfigType)], returning:
    the pointer ([None] for nil) and the error. *)
Definition LoadConfigFile (fs : os.FileSys) (filepath : string) (configType : ConfigType)
  : option Config.t * option error :=
  let config := {| Config.Config := ∅; Config.Filepath := filepath; Config.Type_ := configType |} in
  match os.Open fs filepath with
  | inr err => if os.IsNotExist err then (Some config, None) else (None, Some err)
  | inl f =>
      if bool_decide (configType = Json) then
        let '(m, err) := parseFileLine f in
        (Some {| Config.Config := m; Config.Filepath := filepath; Config.Type_ := configType |}, err)
      else if bool_decide (configType = Line) then
        let '(m, err) := parseFileLine f in
        (Some {| Config.Config := m; Config.Filepath := filepath; Config.Type_ := configType |}, err)
      else
        let '(m, err) := parseFileJSON f in
        (Some {| Config.Config := m; Config.Filepath := filepath; Config.Type_ := Json |}, err)
  end.

(** [func (c *Config) SaveFile() error]: the file system and the store after
    the call, and the error returned unless the call panics. [entries] is the
    order in which [range] visits the map. *)
Definition SaveFile (fs : os.FileSys) (c : Config.t) (entries : list (string * value))
  : os.FileSys * Config.t * outcome (option error) :=
  match os.Create fs (Config.Filepath c) with
  | (fs1, Some err) => (fs1, c, Ret (Some err))
  | (fs1, None) =>
      let f := Config.Filepath c in
      if bool_decide (Config.Type_ c = Json) then
        let '(fs2, r) := writeFileLine fs1 f entries in (fs2, c, r)
      else if bool_decide (Config.Type_ c = Line) then
        let '(fs2, r) := writeFileLine fs1 f entries in (fs2, c, r)
      else
        let c' := {| Config.Config := Config.Config c; Config.Filepath := Config.Filepath c;
                     Config.Type_ := Json |} in
        let '(fs2, err) := writeFileJSON fs1 f (Config.Config c) in (fs2, c', Ret err)
  end.

(** An order in which [range] may visit the entries of [m]. *)
Definition range_order (m : gmap string value) (entries : list (string * value)) : Prop :=
  entries ≡ₚ map_to_list m.

End codecs.

(** ** What the line format can carry *)

Fixpoint contains (a : ascii) (s : string) : bool :=
  match s with
  | EmptyString => false
  | String b s' => Ascii.eqb b a || contains a s'
  end.

(** The [float64] nearest to 3.14. *)
Definition float64_3_14 : spec_float := S754_finite false 7070651414971679 (-51).

Section line_format.
Context `{GoLib}.

(** Whether [writeFileLine] writes the entry. *)
Definition written (e : string * value) : bool :=
  match Value.TypeOf e.2 with
  | Some rt => line_kind (reflect.kind rt)
  | None => false
  end.

(** The bytes [writeFileLine] hands to [f.Write] over the whole loop. *)
Fixpoint file_of (entries : list (string * value)) : string :=
  match entries with
  | [] => EmptyString
  | e :: entries' =>
      if written e then (Sprintf_line e.1 e.2 +:+ file_of entries')%string
      else file_of entries'
  end.

(** An entry that [writeFileLine] either skips or writes as one line that
    [parseFileLine] reads back under the same key: the value is not the nil
    interface, the key has no separator and no line feed and does not start
    a comment, the printed value has no line feed, and the line fits the
    scanner's buffer. *)
Definition line_safe (k : string) (v : value) : bool :=
  match Value.TypeOf v with
  | None => false
  | Some rt =>
      if line_kind (reflect.kind rt) then
        let text := default EmptyString (fmt.Sprint v) in
        negb (contains "=" k) && negb (contains bufio.LF k)
        && negb (gostrings.HasPrefix k "#")
        && negb (contains bufio.LF text)
        && (Z.of_nat (String.length (k +:+ "=" +:+ text)) <? bufio.MaxScanTokenSize)
      else true
  end.

(** The value [parseFileLine] stores for the text after the separator. *)
Definition line_value (text : string) : value :=
  match ParseFloat text with
  | inl f => VFloat None reflect.Float64 f
  | inr _ => VString None text
  end.

(** The line of an entry without its line feed. *)
Definition line_text (e : string * value) : string :=
  (e.1 +:+ "=" +:+ default EmptyString (fmt.Sprint e.2))%string.

Definition safe_entry (e : string * value) : Prop := line_safe e.1 e.2 = true.

(** A map whose entries are all [line_safe]. *)
Definition store_line_safe (m : gmap string value) : bool :=
  forallb (λ e, line_safe e.1 e.2) (map_to_list m).

(** What a written value is read back as: its printed text, without a final
    carriage return, taken as a line value. *)
Definition reloaded (v : value) : value :=
  line_value (bufio.dropCR (default EmptyString (fmt.Sprint v))).

(** The map read back from the lines of [entries], starting from [m]. *)
Definition reload (m : gmap string value) (entries : list (string * value))
  : gmap string value :=
  foldl (λ m e, <[e.1 := reloaded e.2]> m) m (filter (λ e, written e = true) entries).

End line_format.

(** ** A library instance for running scenarios

    The scenarios at the end of the file run the model on concrete stores and
    files. They use this instance, which answers as Go does on the texts and
    values the scenarios contain: [ParseFloat] reads plain decimal literals
    (sign, digits, optional fraction) whose mantissa is below 2^53 and whose
    fraction has at most 22 digits, by the exact division [strconv] itself
    uses for them, and rejects every other text; [FormatFloat] prints the
    integral floats below 10^6 and 3.14; the JSON functions know the empty
    object only; [UnmarshalText] rejects every text; the unrepresentable
    conversions give the pattern of the amd64 conversion instruction. *)
Module scenario.

Fixpoint read_digits (s : string) (m : Z) (nd : nat) : Z * nat * string :=
  match s with
  | String a s' =>
      match Ascii.is_nat a with
      | Some d => read_digits s' (10 * m + Z.of_nat d) (S nd)
      | None => (m, nd, s)
      end
  | EmptyString => (m, nd, s)
  end.

(** The sign, the digits read as one integer and the number of digits after
    the point. *)
Definition decimal (s : string) : option (bool * Z * nat) :=
  let '(neg, s1) :=
    match s with
    | String "-" r => (true, r)
    | String "+" r => (false, r)
    | _ => (false, s)
    end in
  let '(m1, n1, s2) := read_digits s1 0 0 in
  match s2 with
  | EmptyString => if (n1 =? 0)%nat then None else Some (neg, m1, 0%nat)
  | String "." s3 =>
      let '(m2, n2, s4) := read_digits s3 m1 0 in
      match s4 with
      | EmptyString => if (n1 + n2 =? 0)%nat then None else Some (neg, m2, n2)
      | _ => None
      end
  | _ => None
  end.

Definition parse_float (s : string) : spec_float + error :=
  match decimal s with
  | Some (neg, m, n) =>
      if (m <? 2 ^ 53) && (n <=? 22)%nat then
        let q := SFdiv 53 1024 (Value.float64_of_Z m) (Value.float64_of_Z (10 ^ Z.of_nat n)) in
        inl (if neg then SFopp q else q)
      else inr (ErrSyntax "ParseFloat" s)
  | None => inr (ErrSyntax "ParseFloat" s)
  end.

Definition format_float (k : reflect.FloatKind) (f : spec_float) : string :=
  match Value.trunc f with
  | Some z =>
      if bool_decide (Value.float64_of_Z z = f) && (Z.abs z <? 10 ^ 6) then pretty z
      else if bool_decide (f = float64_3_14) then "3.14"%string
      else "NaN"%string
  | None => "NaN"%string
  end.

#[export] Instance lib : GoLib := {|
  ParseFloat := parse_float;
  FormatFloat := format_float;
  json_Decode data :=
    if bool_decide (data = "{}"%string) then (∅, None) else (∅, Some (ErrJSON data));
  json_Marshal m :=
    match map_to_list m with
    | [] => inl "{}"%string
    | _ => inr (ErrJSON "unsupported"%string)
    end;
  UnmarshalText data := inr (ErrTime data);
  float_to_int64_unrepresentable _ := - 2 ^ 63;
  float_to_uint64_unrepresentable _ := 2 ^ 63;
|}.

(** The double quote, for JSON texts. *)
Definition dq : string := String (ascii_of_nat 34) EmptyString.

(** An empty file system with room for 4096 bytes, and one that is full. *)
Definition fs_empty : os.FileSys := {| os.files := ∅; os.denied := ∅; os.free := 4096 |}.
Definition fs_full : os.FileSys := {| os.files := ∅; os.denied := ∅; os.free := 0 |}.

(** A file system whose only file holds a JSON object with the member [a]
    set to 1. *)
Definition json_file : string := ("{" +:+ dq +:+ "a" +:+ dq +:+ ":1}")%string.
Definition fs_json : os.FileSys :=
  {| os.files := {[ "/etc/app.json"%string := json_file ]}; os.denied := ∅; os.free := 4096 |}.

Definition store (path : string) (ty : ConfigType) (m : gmap string value) : Config.t :=
  {| Config.Config := m; Config.Filepath := path; Config.Type_ := ty |}.

(** A store of kind [Line] with two strings and a slice. *)
Definition app_conf : Config.t :=
  store "/etc/app.conf" Line
    {[ "pi"%string := VString None "3.14"; "name"%string := VString None "x";
       "tags"%string := VSlice None [] ]}.

End scenario.

(** ** Files as lists of lines *)

(** The text of a file made of the lines [ls], each ended by a line feed. *)
Fixpoint unlines (ls : list string) : string :=
  match ls with
  | [] => EmptyString
  | l :: ls' => (l +:+ String bufio.LF (unlines ls'))%string
  end.

(** A line the scanner returns whole: it has no line feed and fits the
    buffer. *)
Definition short_line (l : string) : bool :=
  negb (contains bufio.LF l) && (Z.of_nat (String.length l) <? bufio.MaxScanTokenSize).


(** ** The earlier generation of the typed keys

    [type Key[T Keyable] string] and [type TimeKey string]: the key is its
    name, and there is no default. *)
Module Key1.

Record t := { T : reflect.rtype; Key : string; T_Keyable : Keyable T = true }.

Section methods.
Context `{GoLib}.

(** [func (k Key[T]) Get(c *Config) T], returning the zero value where the
    later generation returns the default. *)
Definition Get (k : t) (c : Config.t) : outcome value :=
  let ret := Value.Zero (T k) in
  let '(v, ok) := Config.Get c (Key k) in
  if negb ok then Ret ret else
  let rest :=
    match Value.CanConvert v (T k) with
    | Panic => Panic
    | Ret true => assert_type (Value.Convert v (T k)) (T k)
    | Ret false => Ret ret
    end in
  if bool_decide (Value.TypeOf v = Some (T k)) then Ret v
  else match v with
  | VBool None b =>
      if bool_decide (reflect.kind (T k) = reflect.String)
      then assert_type (VString None (strconv.FormatBool b)) (T k)
      else rest
  | VString None s =>
      if bool_decide (reflect.kind (T k) = reflect.Bool) then
        match strconv.ParseBool s with
        | inl b => assert_type (VBool None b) (T k)
        | inr _ => rest
        end
      else rest
  | _ => rest
  end.

(** [func (k Key[T]) GetErr(c *Config) (T, error)]. *)
Definition GetErr (k : t) (c : Config.t) : outcome (value * option error) :=
  let ret := Value.Zero (T k) in
  let '(v, ok) := Config.Get c (Key k) in
  if negb ok then Ret (ret, Some ErrKeyNotFound) else
  let rest :=
    match Value.CanConvert v (T k) with
    | Panic => Panic
    | Ret true =>
        match assert_type (Value.Convert v (T k)) (T k) with
        | Ret x => Ret (x, None)
        | Panic => Panic
        end
    | Ret false => Ret (ret, Some (ErrCast (T k) (Value.TypeOf v)))
    end in
  if bool_decide (Value.TypeOf v = Some (T k)) then Ret (v, None)
  else match v with
  | VBool None b =>
      if bool_decide (reflect.kind (T k) = reflect.String) then
        match assert_type (VString None (strconv.FormatBool b)) (T k) with
        | Ret x => Ret (x, None)
        | Panic => Panic
        end
      else rest
  | VString None s =>
      if bool_decide (reflect.kind (T k) = reflect.Bool) then
        match strconv.ParseBool s with
        | inl b =>
            match assert_type (VBool None b) (T k) with
            | Ret x => Ret (x, None)
            | Panic => Panic
            end
        | inr _ => rest
        end
      else rest
  | _ => rest
  end.

(** [func (k Key[T]) Put(c *Config, v T)]. *)
Definition Put (k : t) (c : Config.t) (v : value) : Config.t :=
  Config.Put c (Key k) v.

End methods.
End Key1.

Module TimeKey1.

Record t := { Key : string }.

(** [Key[string](k)]. *)
Definition ck (k : t) : Key1.t :=
  {| Key1.T := string_t; Key1.Key := Key k; Key1.T_Keyable := eq_refl |}.

Section methods.
Context `{GoLib}.

(** [func (k TimeKey) Get(c *Config) time.Time]: the error of
    [UnmarshalText] is dropped, and the time is the zero time then. *)
Definition Get (k : t) (c : Config.t) : outcome Time :=
  match Key1.Get (ck k) c with
  | Panic => Panic
  | Ret str =>
      match UnmarshalText (string_of str) with
      | inl t => Ret t
      | inr _ => Ret zeroTime
      end
  end.

(** [func (k TimeKey) GetErr(c *Config) (time.Time, error)]. *)
Definition GetErr (k : t) (c : Config.t) : outcome (Time * option error) :=
  match Key1.GetErr (ck k) c with
  | Panic => Panic
  | Ret (_, Some err) => Ret (zeroTime, Some err)
  | Ret (str, None) =>
      match UnmarshalText (string_of str) with
      | inr err => Ret (zeroTime, Some err)
      | inl t => Ret (t, None)
      end
  end.

(** [func (k TimeKey) Put(c *Config, v time.Time)]. *)
Definition Put (k : t) (c : Config.t) (v : Time) : Config.t :=
  Config.Put c (Key k) (VTime v).

End methods.
End TimeKey1.

(** ** More stores, keys and files for examples *)

Module example.

(** A store with a float, an integer, a string, a boolean and a nil entry. *)
Definition mixed : Config.t :=
  scenario.store "/etc/mixed.conf" Line
    {[ "port"%string := VFloat None reflect.Float64 (Value.float64_of_Z 8080);
       "code"%string := VInt None reflect.Int 8364;
       "name"%string := VString None "x";
       "debug"%string := VBool None true;
       "ghost"%string := VNil ]}.

(** [Key[int]{port, 80}], [Key[bool]{name, true}] and a key of the defined
    string type [main.Name]. *)
Definition int_t : reflect.rtype := reflect.MkType None (reflect.Integer reflect.Int).
Definition int_key (name : string) (d : Z) : Key.t :=
  {| Key.T := int_t; Key.Key := name; Key.Default := VInt None reflect.Int d;
     Key.T_Keyable := eq_refl; Key.Default_T := eq_refl |}.

Definition name_t : reflect.rtype := reflect.MkType (Some "main.Name"%string) reflect.String.
Definition name_key (name d : string) : Key.t :=
  {| Key.T := name_t; Key.Key := name; Key.Default := VString (Some "main.Name"%string) d;
     Key.T_Keyable := eq_refl; Key.Default_T := eq_refl |}.

(** The earlier generation's [Key[string]] and [TimeKey] named [name]. *)
Definition string_key1 (name : string) : Key1.t :=
  {| Key1.T := string_t; Key1.Key := name; Key1.T_Keyable := eq_refl |}.

(** A store of an unrecognised kind, empty and with one entry. *)
Definition other_kind : ConfigType := 7.
Definition other_empty : Config.t := scenario.store "/etc/other.cfg" other_kind ∅.
Definition other_full : Config.t :=
  scenario.store "/etc/other.cfg" other_kind {[ "name"%string := VString None "x" ]}.

(** A file system where [/etc/locked.conf] exists and cannot be opened. *)
Definition fs_locked : os.FileSys :=
  {| os.files := {[ "/etc/locked.conf"%string := "a=1"%string ]};
     os.denied := {[ "/etc/locked.conf"%string ]}; os.free := 4096 |}.

(** A file system with one file of two lines. *)
Definition lines_file : string :=
  unlines ["# settings"%string; "name=x"%string].
Definition fs_lines : os.FileSys :=
  {| os.files := {[ "/etc/app.conf"%string := lines_file ]}; os.denied := ∅; os.free := 4096 |}.

Fixpoint replicate_char (n : nat) (a : ascii) : string :=
  match n with
  | O => EmptyString
  | S n' => String a (replicate_char n' a)
  end.

(** A line of 65536 bytes. *)
Definition long_line : string := replicate_char (Z.to_nat 65536) "x".

End example.

(** * Properties *)

(** ** Strings *)

Lemma append_cons a (s1 s2 : string) : (String a s1 +:+ s2)%string = String a (s1 +:+ s2).
Proof. reflexivity. Qed.

Lemma append_nil_l (s : string) : (EmptyString +:+ s)%string = s.
Proof. reflexivity. Qed.

Lemma append_nil_r (s : string) : (s +:+ EmptyString)%string = s.
Proof. induction s as [|a s IH]; [done|]. by rewrite append_cons, IH. Qed.

Lemma append_assoc (s1 s2 s3 : string) : ((s1 +:+ s2) +:+ s3 = s1 +:+ (s2 +:+ s3))%string.
Proof. induction s1 as [|a s1 IH]; [done|]. by rewrite !append_cons, IH. Qed.

Lemma length_append (s1 s2 : string) :
  String.length (s1 +:+ s2) = (String.length s1 + String.length s2)%nat.
Proof. induction s1 as [|a s1 IH]; [done|]. rewrite append_cons. simpl. by rewrite IH. Qed.

Lemma contains_append a (s1 s2 : string) :
  contains a (s1 +:+ s2) = contains a s1 || contains a s2.
Proof.
  induction s1 as [|b s1 IH]; [done|]. rewrite append_cons. simpl.
  rewrite IH. by destruct (Ascii.eqb b a).
Qed.

Lemma dropCR_cons a (s : string) :
  s ≠ EmptyString → bufio.dropCR (String a s) = String a (bufio.dropCR s).
Proof. by destruct s. Qed.

Lemma dropCR_append (s1 s2 : string) :
  s2 ≠ EmptyString → bufio.dropCR (s1 +:+ s2) = (s1 +:+ bufio.dropCR s2)%string.
Proof.
  intros Hs2. induction s1 as [|a s1 IH]; [done|].
  rewrite !append_cons, dropCR_cons; [by rewrite IH|].
  destruct s1; [by rewrite append_nil_l|by rewrite append_cons].
Qed.

Lemma dropCR_separator (text : string) :
  bufio.dropCR (String "=" text) = String "=" (bufio.dropCR text).
Proof. by destruct text. Qed.

Lemma HasPrefix_append (k s : string) a :
  a ≠ "#"%char → gostrings.HasPrefix k "#" = false →
  gostrings.HasPrefix (k +:+ String a s) "#" = false.
Proof.
  intros Ha. destruct k as [|b k].
  - intros _. rewrite append_nil_l. simpl. by apply Ascii.eqb_neq in Ha as ->.
  - rewrite append_cons. simpl. by destruct (Ascii.eqb b "#"), k.
Qed.

Lemma SplitN2_append (k text : string) :
  contains "=" k = false → gostrings.SplitN2 (k +:+ String "=" text) "=" = [k; text].
Proof.
  induction k as [|a k IH]; [done|]. rewrite append_cons. simpl.
  intros [Ha Hk]%orb_false_elim. by rewrite Ha, (IH Hk).
Qed.

(** ** The scanner *)

Lemma scan_from_cons (cur rest : string) a :
  bufio.scan_from cur (String a rest) =
    if Ascii.eqb a bufio.LF then
      if bufio.MaxScanTokenSize <=? Z.of_nat (String.length cur) then ([], Some ErrTooLong)
      else let '(toks, err) := bufio.scan_from EmptyString rest in (bufio.dropCR cur :: toks, err)
    else bufio.scan_from (cur +:+ String a EmptyString) rest.
Proof. reflexivity. Qed.

Lemma scan_from_line (l cur rest : string) :
  contains bufio.LF l = false →
  Z.of_nat (String.length (cur +:+ l)) < bufio.MaxScanTokenSize →
  bufio.scan_from cur (l +:+ String bufio.LF rest) =
    (bufio.dropCR (cur +:+ l) :: (bufio.scan_from EmptyString rest).1,
     (bufio.scan_from EmptyString rest).2).
Proof.
  revert cur. induction l as [|a l IH]; intros cur Hl Hlen.
  - rewrite append_nil_r in Hlen. rewrite append_nil_l, append_nil_r.
    rewrite scan_from_cons, Ascii.eqb_refl.
    destruct (Z.leb_spec bufio.MaxScanTokenSize (Z.of_nat (String.length cur))); [lia|].
    by destruct (bufio.scan_from _ rest).
  - apply orb_false_elim in Hl as [Ha Hl].
    rewrite append_cons, scan_from_cons, Ha.
    rewrite IH; [| done | by rewrite append_assoc].
    by rewrite append_assoc.
Qed.

Section line_codec.
Context `{GoLib}.

Lemma Sprintf_line_text k v : Sprintf_line k v = (line_text (k, v) +:+ String bufio.LF EmptyString)%string.
Proof. unfold Sprintf_line, line_text. simpl. by rewrite !append_assoc. Qed.

(** What [line_safe] says of an entry that is written. *)
Lemma line_safe_written k v :
  line_safe k v = true → written (k, v) = true →
  contains "=" k = false ∧ contains bufio.LF k = false ∧ gostrings.HasPrefix k "#" = false ∧
  contains bufio.LF (default EmptyString (fmt.Sprint v)) = false ∧
  Z.of_nat (String.length (line_text (k, v))) < bufio.MaxScanTokenSize.
Proof.
  unfold line_safe, written, line_text. simpl. destruct (Value.TypeOf v) as [rt|]; [|done].
  intros Hs Hw. rewrite Hw in Hs.
  repeat (apply andb_prop in Hs as [Hs ?]).
  repeat match goal with Hn : negb _ = true |- _ => apply negb_true_iff in Hn end.
  repeat split; try done. by apply Z.ltb_lt.
Qed.

Lemma contains_line_text e :
  safe_entry e → written e = true → contains bufio.LF (line_text e) = false.
Proof.
  destruct e as [k v]. intros Hs Hw.
  destruct (line_safe_written k v Hs Hw) as (_ & Hk & _ & Hv & _).
  unfold line_text. cbn [fst snd]. by rewrite !contains_append, Hk, Hv.
Qed.

(** The scanner reads a file written by [writeFileLine] back line by line. *)
Lemma ScanLines_file_of (entries : list (string * value)) :
  Forall safe_entry entries →
  bufio.ScanLines (file_of entries) =
    ((λ e, bufio.dropCR (line_text e)) <$> filter (λ e, written e = true) entries, None).
Proof.
  unfold bufio.ScanLines. induction 1 as [|e entries He _ IH]; [done|].
  simpl. rewrite filter_cons. destruct (written e) eqn:Hw.
  - rewrite decide_True by done. destruct e as [k v]. simpl.
    rewrite Sprintf_line_text, append_assoc, append_cons, append_nil_l.
    rewrite scan_from_line, IH; [done|by apply contains_line_text|].
    rewrite append_nil_l. by destruct (line_safe_written k v He Hw) as (_ & _ & _ & _ & ?).
  - rewrite decide_False by done. done.
Qed.

(** One written line read back: the key gets the value of the text after
    the separator, without a final carriage return. *)
Lemma parseLine_line_text m e :
  safe_entry e → written e = true →
  parseLine m (bufio.dropCR (line_text e)) =
    <[e.1 := line_value (bufio.dropCR (default EmptyString (fmt.Sprint e.2)))]> m.
Proof.
  destruct e as [k v]. intros Hs Hw.
  destruct (line_safe_written k v Hs Hw) as (Heq & _ & Hc & _ & _).
  unfold line_text, parseLine, line_value. simpl.
  set (text := default EmptyString (fmt.Sprint v)).
  rewrite append_cons, append_nil_l, dropCR_append, dropCR_separator by done.
  rewrite HasPrefix_append, SplitN2_append by done.
  by destruct (ParseFloat _).
Qed.

Lemma foldl_parseLine_file_of entries m :
  Forall safe_entry entries →
  foldl parseLine m ((λ e, bufio.dropCR (line_text e)) <$> filter (λ e, written e = true) entries)
  = reload m entries.
Proof.
  unfold reload. intros Hs. revert m.
  induction Hs as [|e entries He _ IH]; intros m; [done|].
  rewrite filter_cons. case_decide; [|apply IH].
  rewrite fmap_cons. simpl. rewrite parseLine_line_text by done. apply IH.
Qed.

Lemma reload_other entries m k : k ∉ entries.*1 → reload m entries !! k = m !! k.
Proof.
  unfold reload. revert m. induction entries as [|e entries IH]; intros m Hk; [done|].
  rewrite fmap_cons in Hk. apply not_elem_of_cons in Hk as [Hne Hk].
  rewrite filter_cons. case_decide; simpl; rewrite IH by done; [|done].
  by rewrite lookup_insert_ne.
Qed.

Lemma reload_entry entries m k v :
  NoDup entries.*1 → (k, v) ∈ entries → written (k, v) = true →
  reload m entries !! k = Some (reloaded v).
Proof.
  unfold reload. intros Hnd Hin Hw. revert m.
  induction entries as [|e entries IH]; intros m; [by apply elem_of_nil in Hin|].
  rewrite fmap_cons in Hnd. apply NoDup_cons in Hnd as [Hfresh Hnd].
  rewrite filter_cons. apply elem_of_cons in Hin as [<-|Hin].
  - rewrite decide_True by done. simpl.
    fold (reload (<[k:=reloaded v]> m) entries).
    rewrite reload_other by done. apply lookup_insert_eq.
  - case_decide; simpl; by apply IH.
Qed.

(** [parseFileLine] on a file written by [writeFileLine]. *)
Lemma parseFileLine_file_of entries :
  Forall safe_entry entries → parseFileLine (file_of entries) = (reload ∅ entries, None).
Proof.
  intros Hs. unfold parseFileLine.
  by rewrite ScanLines_file_of, foldl_parseLine_file_of.
Qed.

(** With room on the device, [writeFileLine] appends the lines of the
    entries to the file. *)
Lemma writeFileLine_file_of entries fs f data :
  Forall safe_entry entries →
  os.files fs !! f = Some data →
  (String.length (file_of entries) ≤ os.free fs)%nat →
  writeFileLine fs f entries =
    ({| os.files := <[f := (data +:+ file_of entries)%string]> (os.files fs);
        os.denied := os.denied fs;
        os.free := (os.free fs - String.length (file_of entries))%nat |}, Ret None).
Proof.
  intros Hs. revert fs data.
  induction Hs as [|[k v] entries He _ IH]; intros fs data Hf Hfree.
  - simpl. rewrite append_nil_r, insert_id, Nat.sub_0_r by done. by destruct fs.
  - simpl in *. unfold written in *. simpl in *.
    unfold safe_entry, line_safe in He. simpl in He.
    destruct (Value.TypeOf v) as [rt|]; [|done].
    destruct (line_kind (reflect.kind rt)); [|by apply IH].
    rewrite length_append in Hfree. unfold os.Write.
    destruct (Nat.leb_spec (String.length (Sprintf_line k v)) (os.free fs)); [|lia].
    simpl. erewrite IH; simpl.
    + rewrite Hf. simpl. rewrite insert_insert_eq, append_assoc, length_append.
      by rewrite Nat.sub_add_distr.
    + rewrite Hf. simpl. apply lookup_insert_eq.
    + lia.
Qed.

(** What an order of iteration inherits from the map. *)
Lemma range_order_safe (m : gmap string value) entries :
  range_order m entries → store_line_safe m = true → Forall safe_entry entries.
Proof.
  intros Hp Hm. rewrite Hp. apply Forall_forall. intros e Hin.
  unfold store_line_safe in Hm. rewrite forallb_forall in Hm.
  apply Hm. by apply list_elem_of_In.
Qed.

Lemma range_order_NoDup (m : gmap string value) entries :
  range_order m entries → NoDup entries.*1.
Proof. intros Hp. rewrite Hp. apply NoDup_fst_map_to_list. Qed.

Lemma range_order_elem_of (m : gmap string value) entries k v :
  range_order m entries → m !! k = Some v → (k, v) ∈ entries.
Proof. intros Hp Hk. rewrite Hp. by apply elem_of_map_to_list. Qed.

(** Saving with the line writer and loading with the line reader: the save
    succeeds and the load yields [reload ∅ entries]. *)
Lemma SaveFile_LoadConfigFile_line fs c entries :
  Config.Type_ c = Line ∨ Config.Type_ c = Json →
  range_order (Config.Config c) entries →
  store_line_safe (Config.Config c) = true →
  Config.Filepath c ∉ os.denied fs →
  (String.length (file_of entries) ≤ os.free fs)%nat →
  ∃ fs',
    SaveFile fs c entries = (fs', c, Ret None) ∧
    LoadConfigFile fs' (Config.Filepath c) (Config.Type_ c) =
      (Some {| Config.Config := reload ∅ entries; Config.Filepath := Config.Filepath c;
               Config.Type_ := Config.Type_ c |}, None).
Proof.
  intros Hty Hp Hm Hden Hfree.
  pose proof (range_order_safe _ _ Hp Hm) as Hs.
  unfold SaveFile, os.Create. rewrite bool_decide_eq_false_2 by done.
  erewrite writeFileLine_file_of; [| done | apply lookup_insert_eq | done].
  eexists. split.
  - destruct Hty as [-> | ->]; by repeat case_bool_decide.
  - unfold LoadConfigFile, os.Open. simpl.
    rewrite lookup_insert_eq, bool_decide_eq_false_2, append_nil_l by done.
    rewrite parseFileLine_file_of by done.
    destruct Hty as [-> | ->]; by repeat case_bool_decide.
Qed.

End line_codec.

(** ** The store and the typed keys *)

Section keys.
Context `{GoLib}.

Lemma Config_Get_Some (c : Config.t) key v :
  Config.Config c !! key = Some v → Config.Get c key = (v, true).
Proof. unfold Config.Get. by intros ->. Qed.

Lemma Config_Get_None (c : Config.t) key :
  Config.Config c !! key = None → Config.Get c key = (VNil, false).
Proof. unfold Config.Get. by intros ->. Qed.

Lemma Config_Get_Put (c : Config.t) key v :
  Config.Get (Config.Put c key v) key = (v, true).
Proof. apply Config_Get_Some. simpl. apply lookup_insert_eq. Qed.

(** The case [T] of the type switch. *)
Lemma Key_GetErr_case_T (k : Key.t) (c : Config.t) v :
  Config.Config c !! Key.Key k = Some v → Value.TypeOf v = Some (Key.T k) →
  Key.GetErr k c = Ret (v, None).
Proof.
  intros Hv Ht. unfold Key.GetErr. rewrite (Config_Get_Some _ _ _ Hv). simpl.
  by rewrite bool_decide_eq_true_2.
Qed.

(** After [Put] of a value of type [T], [GetErr] succeeds with it. *)
Lemma Key_GetErr_Put (k : Key.t) (c : Config.t) v :
  Value.TypeOf v = Some (Key.T k) → Key.GetErr k (Key.Put k c v) = Ret (v, None).
Proof. intros Ht. apply Key_GetErr_case_T; [apply lookup_insert_eq|done]. Qed.

(** [Convert] yields a value of the target type whenever [CanConvert] allows
    it, so the assertion that follows it in [Get] and [GetErr] holds. *)
Lemma Convert_TypeOf (v : value) (t : reflect.rtype) :
  Value.CanConvert v t = Ret true → Value.TypeOf (Value.Convert v t) = Some t.
Proof.
  unfold Value.CanConvert, Value.ConvertibleTo. destruct t as [n kd].
  destruct v; simpl; intros Hc; simplify_eq;
    destruct kd; simplify_eq/=; try done;
    by repeat (case_bool_decide; simplify_eq/=).
Qed.

Lemma Zero_TypeOf (t : reflect.rtype) :
  Keyable t = true → Value.TypeOf (Value.Zero t) = Some t.
Proof. destruct t as [n []]; by try done. Qed.

(** What [Get] returns has the type [T] of the accessor. *)
Lemma Key_Get_typed (k : Key.t) (c : Config.t) x :
  Key.Get k c = Ret x → Value.TypeOf x = Some (Key.T k).
Proof.
  pose proof (Key.Default_T k) as Hd. unfold Key.Get, assert_type.
  destruct (Config.Get c (Key.Key k)) as [v ok].
  destruct ok; simpl; [|by intros [= <-]].
  case_bool_decide; [by intros [= <-]|].
  destruct (Value.CanConvert v (Key.T k)) as [[]|] eqn:Hc;
    repeat (case_bool_decide || case_match); by intros [= <-].
Qed.

Lemma Key_GetErr_typed (k : Key.t) (c : Config.t) x e :
  Key.GetErr k c = Ret (x, e) → Value.TypeOf x = Some (Key.T k).
Proof.
  pose proof (Zero_TypeOf _ (Key.T_Keyable k)) as Hz. unfold Key.GetErr, assert_type.
  destruct (Config.Get c (Key.Key k)) as [v ok].
  destruct ok; simpl; [|by intros [= <- <-]].
  case_bool_decide; [by intros [= <- <-]|].
  destruct (Value.CanConvert v (Key.T k)) as [[]|] eqn:Hc;
    repeat (case_bool_decide || case_match); by intros [= <- <-].
Qed.

(** C6: for a key name absent from the store, [Get] returns the default of
    the accessor and [GetErr] fails with [ErrKeyNotFound]. *)
Theorem Key_absent (k : Key.t) (c : Config.t) :
  Config.Config c !! Key.Key k = None →
  Key.Get k c = Ret (Key.Default k) ∧
  Key.GetErr k c = Ret (Value.Zero (Key.T k), Some ErrKeyNotFound).
Proof.
  intros Hk. unfold Key.Get, Key.GetErr. by rewrite (Config_Get_None _ _ Hk).
Qed.

(** C7: the bridge between booleans and strings. With the boolean [true]
    (or [false]) stored under [k], the [Key[string]] with the empty default
    reads the text true (or false); with the string false stored under [k],
    the [Key[bool]] with default [true] reads [false]; and a stored string
    that [strconv.ParseBool] accepts is read as that boolean, whatever the
    default. *)
Theorem bool_string_bridge (c : Config.t) (k : string) :
  Key.Get (string_key k EmptyString) (Config.Put c k (VBool None true))
    = Ret (VString None "true") ∧
  Key.Get (string_key k EmptyString) (Config.Put c k (VBool None false))
    = Ret (VString None "false") ∧
  Key.Get (bool_key k true) (Config.Put c k (VString None "false"))
    = Ret (VBool None false) ∧
  (∀ d s b, strconv.ParseBool s = inl b →
     Key.Get (bool_key k d) (Config.Put c k (VString None s)) = Ret (VBool None b)).
Proof.
  assert (Hbool : ∀ d s b, strconv.ParseBool s = inl b →
    Key.Get (bool_key k d) (Config.Put c k (VString None s)) = Ret (VBool None b)).
  { intros d s b Hs. unfold Key.Get. simpl Key.Key. rewrite Config_Get_Put. simpl.
    by rewrite Hs. }
  repeat split; [| | by apply Hbool | done];
    unfold Key.Get; simpl Key.Key; by rewrite Config_Get_Put.
Qed.


(** C10: [Get] and [GetErr] agree. When [GetErr] succeeds with [v], [Get]
    returns [v]; when [GetErr] returns an error, [Get] returns the default;
    and one panics exactly when the other does. *)
Theorem Get_GetErr_coherent (k : Key.t) (c : Config.t) :
  (∀ v, Key.GetErr k c = Ret (v, None) → Key.Get k c = Ret v) ∧
  (∀ x e, Key.GetErr k c = Ret (x, Some e) → Key.Get k c = Ret (Key.Default k)) ∧
  (Key.GetErr k c = Panic ↔ Key.Get k c = Panic).
Proof.
  unfold Key.Get, Key.GetErr.
  destruct (Config.Get c (Key.Key k)) as [v ok].
  destruct ok; simpl; [|by repeat split; intros; simplify_eq].
  case_bool_decide; [by repeat split; intros; simplify_eq|].
  destruct (Value.CanConvert v (Key.T k)) as [[]|] eqn:Hc;
  destruct (assert_type (Value.Convert v (Key.T k)) (Key.T k)) eqn:Ha;
  destruct v as [|[n|] b|n ik z|n fk f|[n|] s|n l|n m|t];
    repeat (case_bool_decide || case_match);
    by repeat split; intros; simplify_eq.
Qed.

(** C3: [TimeKey.Put] stores the [time.Time] itself, a value of kind
    [Struct], not a string; the [Get] and [GetErr] of the same key then fail
    to convert it and do not give the timestamp back. *)
Theorem TimeKey_Put_stores_struct (k : TimeKey.t) (c : Config.t) (v : Time) :
  Config.Config (TimeKey.Put k c v) !! TimeKey.Key k = Some (VTime v) ∧
  reflect.kind <$> Value.TypeOf (VTime v) = Some reflect.Struct ∧
  TimeKey.Get k (TimeKey.Put k c v) = Ret (TimeKey.Default k) ∧
  TimeKey.GetErr k (TimeKey.Put k c v)
    = Ret (zeroTime, Some (ErrCast string_t (Value.TypeOf (VTime v)))).
Proof.
  repeat split.
  - apply lookup_insert_eq.
  - unfold TimeKey.Get, TimeKey.Put, Key.GetErr, TimeKey.ck. simpl Key.Key.
    by rewrite Config_Get_Put.
  - unfold TimeKey.GetErr, TimeKey.Put, Key.GetErr, TimeKey.ck. simpl Key.Key.
    by rewrite Config_Get_Put.
Qed.

End keys.

(** ** Loading and saving *)

Section files.
Context `{GoLib}.

(** [writeFileLine] returns no error, whatever [f.Write] returned. *)
Lemma writeFileLine_no_error fs f entries :
  (writeFileLine fs f entries).2 = Ret None ∨ (writeFileLine fs f entries).2 = Panic.
Proof.
  revert fs. induction entries as [|[k v] entries IH]; intros fs; simpl; [by left|].
  destruct (Value.TypeOf v) as [rt|]; [|by right].
  destruct (line_kind (reflect.kind rt)); apply IH.
Qed.

(** With the kinds [Json] and [Line], the only error [SaveFile] returns is
    that of [os.Create]. *)
Lemma SaveFile_error fs c entries fs' c' err :
  Config.Type_ c = Json ∨ Config.Type_ c = Line →
  SaveFile fs c entries = (fs', c', Ret (Some err)) →
  os.Create fs (Config.Filepath c) = (fs', Some err).
Proof.
  intros Hty. unfold SaveFile.
  destruct (os.Create fs (Config.Filepath c)) as [fs1 [e|]]; [by intros [= -> -> ->]|].
  pose proof (writeFileLine_no_error fs1 (Config.Filepath c) entries) as Hw.
  destruct (writeFileLine fs1 (Config.Filepath c) entries) as [fs2 r]. simpl in Hw.
  destruct Hty as [-> | ->]; repeat case_bool_decide; try done;
    intros [= -> -> ->]; by destruct Hw.
Qed.

(** With the kind [Json], [LoadConfigFile] reads the file with the line
    reader; the JSON decoder is not consulted. *)
Lemma LoadConfigFile_Json fs filepath data :
  os.Open fs filepath = inl data →
  LoadConfigFile fs filepath Json =
    (Some {| Config.Config := (parseFileLine data).1; Config.Filepath := filepath;
             Config.Type_ := Json |}, (parseFileLine data).2).
Proof.
  intros Ho. unfold LoadConfigFile. rewrite Ho. rewrite bool_decide_eq_true_2 by done.
  by destruct (parseFileLine data).
Qed.

(** C5: loading a path that does not exist returns, for every kind, a store
    with the empty map and no error, and [Get] finds no key in it. *)
Theorem LoadConfigFile_absent fs (filepath : string) (configType : ConfigType) :
  os.files fs !! filepath = None →
  ∃ c, LoadConfigFile fs filepath configType = (Some c, None) ∧
       Config.Config c = ∅ ∧
       ∀ key, Config.Get c key = (VNil, false).
Proof.
  intros Hf. unfold LoadConfigFile, os.Open. rewrite Hf. simpl.
  eexists. split; [done|]. split; [done|]. intros key. unfold Config.Get. simpl.
  by rewrite lookup_empty.
Qed.

(** A line with a key: the key gets the float the text after the separator
    parses as, or that text as a string. *)
Lemma parseLine_key_value m (k text : string) :
  gostrings.HasPrefix k "#" = false → contains "=" k = false →
  parseLine m (k +:+ "=" +:+ text) =
    <[k := match ParseFloat text with
           | inl f => VFloat None reflect.Float64 f
           | inr _ => VString None text
           end]> m.
Proof.
  intros Hc Hk. unfold parseLine.
  rewrite append_cons, append_nil_l, HasPrefix_append, SplitN2_append by done.
  by destruct (ParseFloat text).
Qed.

(** C9, amended: a store of kind [Line] whose entries are all [line_safe] is
    saved to a path that can be created, on a device with room for the file,
    and loaded again. An entry holding the string 3.14 comes back as the
    float 3.14, provided [strconv.ParseFloat] reads that text as the nearest
    [float64]. On every line with a key, the text after the separator is
    stored as a float when it parses as one and as a string otherwise. *)
Theorem line_roundtrip_3_14 fs (c : Config.t) entries (k : string) :
  Config.Type_ c = Line →
  range_order (Config.Config c) entries →
  store_line_safe (Config.Config c) = true →
  Config.Filepath c ∉ os.denied fs →
  (String.length (file_of entries) ≤ os.free fs)%nat →
  Config.Config c !! k = Some (VString None "3.14") →
  ParseFloat "3.14" = inl float64_3_14 →
  (∃ fs' c',
     SaveFile fs c entries = (fs', c, Ret None) ∧
     LoadConfigFile fs' (Config.Filepath c) Line = (Some c', None) ∧
     Config.Config c' !! k = Some (VFloat None reflect.Float64 float64_3_14)) ∧
  (∀ m (k' text : string),
     gostrings.HasPrefix k' "#" = false → contains "=" k' = false →
     parseLine m (k' +:+ "=" +:+ text) =
       <[k' := match ParseFloat text with
               | inl f => VFloat None reflect.Float64 f
               | inr _ => VString None text
               end]> m).
Proof.
  intros Hty Hp Hm Hden Hfree Hk Hpf. split; [|apply parseLine_key_value].
  destruct (SaveFile_LoadConfigFile_line fs c entries) as (fs' & Hsave & Hload); auto.
  rewrite Hty in Hload. eexists fs', _. split; [done|]. split; [done|]. simpl.
  erewrite reload_entry;
    [| by eapply range_order_NoDup | by eapply range_order_elem_of | done].
  unfold reloaded, line_value. simpl. by rewrite Hpf.
Qed.

End files.

(** ** Scenarios *)

Section scenarios.
#[local] Existing Instance scenario.lib.

(** C1: loading a file that holds the JSON object with the member [a] set
    to 1 with the kind [Json] yields the empty map and no error: the text is
    read as lines, and its one line has no separator. *)
Theorem LoadConfigFile_Json_object :
  LoadConfigFile scenario.fs_json "/etc/app.json" Json
    = (Some (scenario.store "/etc/app.json" Json ∅), None).
Proof. reflexivity. Qed.

(** C2: a store of kind [Json] holding the boolean [true] under [debug] is
    saved as the line debug=true and loaded back, with the kind [Json], as
    the string true. *)
Theorem SaveFile_LoadConfigFile_Json_bool :
  let c := scenario.store "/etc/app.json" Json {[ "debug"%string := VBool None true ]} in
  ∃ fs',
    SaveFile scenario.fs_empty c (map_to_list (Config.Config c)) = (fs', c, Ret None) ∧
    os.files fs' !! "/etc/app.json"%string
      = Some ("debug=true" +:+ String bufio.LF EmptyString)%string ∧
    LoadConfigFile fs' "/etc/app.json" Json
      = (Some (scenario.store "/etc/app.json" Json
                 {[ "debug"%string := VString None "true" ]}), None).
Proof. eexists. split; [reflexivity|]. split; reflexivity. Qed.

(** C4: on a full device the write of the line fails with [ENOSPC], and
    [SaveFile] returns no error and leaves the file empty. *)
Theorem SaveFile_full_device :
  let c := scenario.store "/etc/app.conf" Line {[ "name"%string := VString None "x" ]} in
  let fs1 := (os.Create scenario.fs_full "/etc/app.conf").1 in
  (os.Write fs1 "/etc/app.conf" (Sprintf_line "name" (VString None "x"))).2
    = Some (ENOSPC "/etc/app.conf") ∧
  ∃ fs',
    SaveFile scenario.fs_full c (map_to_list (Config.Config c)) = (fs', c, Ret None) ∧
    os.files fs' !! "/etc/app.conf"%string = Some EmptyString.
Proof. split; [reflexivity|]. eexists. split; reflexivity. Qed.

(** C9 as stated fails: with [strconv.ParseFloat] reading 3.14 as the
    nearest float, a store of kind [Line] holding the string 3.14 under the
    key a=b is saved as the line a=b=3.14 and loaded back with nothing under
    a=b and the string b=3.14 under a. *)
Lemma line_roundtrip_separator_in_key :
  let c := scenario.store "/etc/app.conf" Line {[ "a=b"%string := VString None "3.14" ]} in
  ParseFloat "3.14" = inl float64_3_14 ∧
  ∃ fs' c',
    SaveFile scenario.fs_empty c (map_to_list (Config.Config c)) = (fs', c, Ret None) ∧
    LoadConfigFile fs' "/etc/app.conf" Line = (Some c', None) ∧
    Config.Config c' !! "a=b"%string = None ∧
    Config.Config c' !! "a"%string = Some (VString None "b=3.14").
Proof.
  split; [reflexivity|]. eexists _, _.
  split; [reflexivity|]. split; [reflexivity|]. split; reflexivity.
Qed.

Lemma LoadConfigFile_absent_witness :
  os.files scenario.fs_empty !! "/tmp/does-not-exist.cfg"%string = None ∧
  ∃ c, LoadConfigFile scenario.fs_empty "/tmp/does-not-exist.cfg" Json = (Some c, None) ∧
       Config.Config c = ∅ ∧
       ∀ key, Config.Get c key = (VNil, false).
Proof.
  split; [vm_compute; reflexivity|].
  apply (LoadConfigFile_absent scenario.fs_empty "/tmp/does-not-exist.cfg" Json).
  vm_compute; vm_compute; reflexivity.
Defined.

Lemma Key_absent_witness :
  Config.Config scenario.app_conf !! "port"%string = None ∧
  Key.Get (string_key "port" "8080") scenario.app_conf = Ret (VString None "8080") ∧
  Key.GetErr (string_key "port" "8080") scenario.app_conf
    = Ret (VString None EmptyString, Some ErrKeyNotFound).
Proof.
  split; [vm_compute; reflexivity|].
  apply (Key_absent (string_key "port" "8080") scenario.app_conf). vm_compute; reflexivity.
Defined.

Lemma bool_string_bridge_witness :
  strconv.ParseBool "TRUE" = inl true ∧
  Key.Get (bool_key "debug" false) (Config.Put scenario.app_conf "debug" (VString None "TRUE"))
    = Ret (VBool None true).
Proof.
  split; [vm_compute; reflexivity|].
  apply (proj2 (proj2 (proj2 (bool_string_bridge scenario.app_conf "debug")))). vm_compute; reflexivity.
Defined.


Lemma Get_GetErr_coherent_witness :
  let k := bool_key "pi" true in
  Key.GetErr k scenario.app_conf = Ret (VBool None false, Some (ErrCast bool_t (Some string_t))) ∧
  Key.Get k scenario.app_conf = Ret (VBool None true).
Proof.
  split; [vm_compute; reflexivity|].
  apply (proj1 (proj2 (Get_GetErr_coherent (bool_key "pi" true) scenario.app_conf))
           (VBool None false) (ErrCast bool_t (Some string_t))).
  vm_compute; vm_compute; reflexivity.
Defined.

Lemma line_roundtrip_3_14_witness :
  ∃ fs' c',
    SaveFile scenario.fs_empty scenario.app_conf (map_to_list (Config.Config scenario.app_conf))
      = (fs', scenario.app_conf, Ret None) ∧
    LoadConfigFile fs' "/etc/app.conf" Line = (Some c', None) ∧
    Config.Config c' !! "pi"%string = Some (VFloat None reflect.Float64 float64_3_14).
Proof.
  apply (line_roundtrip_3_14 scenario.fs_empty scenario.app_conf
           (map_to_list (Config.Config scenario.app_conf)) "pi").
  - vm_compute; reflexivity.
  - unfold range_order. reflexivity.
  - vm_compute; reflexivity.
  - apply not_elem_of_empty.
  - apply Nat.leb_le. vm_compute; reflexivity.
  - vm_compute; reflexivity.
  - vm_compute; reflexivity.
Defined.

End scenarios.

(** * Further properties *)

(** ** The untyped store *)

Section store_more.

(** X1: [Put] then [Get] of the same key gives the value back and found; the
    other keys, the path and the kind are as before. *)
Theorem Config_Put_Get (c : Config.t) (key : string) (val : value) :
  Config.Get (Config.Put c key val) key = (val, true) ∧
  (∀ key', key' ≠ key → Config.Get (Config.Put c key val) key' = Config.Get c key') ∧
  Config.Filepath (Config.Put c key val) = Config.Filepath c ∧
  Config.Type_ (Config.Put c key val) = Config.Type_ c.
Proof.
  repeat split.
  - unfold Config.Get. simpl. by rewrite lookup_insert_eq.
  - intros key' Hne. unfold Config.Get. simpl. by rewrite lookup_insert_ne.
Qed.

(** X2: the copy [GetCopyOfConfig] builds entry by entry is the map of the
    store. *)
Theorem GetCopyOfConfig_eq (c : Config.t) :
  Config.GetCopyOfConfig c = Config.Config c.
Proof.
  unfold Config.GetCopyOfConfig.
  apply (map_fold_weak_ind (λ r m, r = m)); [done|].
  intros k v m r Hk ->. done.
Qed.

(** X3: the generic [Get] succeeds exactly when the key holds a value whose
    dynamic type is [T], and returns that value unchanged; when it fails it
    returns the zero value of [T]. *)
Theorem Get_ok_iff (T : reflect.rtype) (c : Config.t) (key : string) :
  (∀ v, Get T c key = (v, true) ↔
        Config.Config c !! key = Some v ∧ Value.TypeOf v = Some T) ∧
  (∀ v, Get T c key = (v, false) → v = Value.Zero T).
Proof.
  unfold Get, Config.Get. destruct (Config.Config c !! key) as [x|]; simpl.
  - case_bool_decide as Ht; split; intros v; try split.
    + by intros [= <-].
    + by intros [[= <-] _].
    + done.
    + done.
    + intros [[= <-] ?]. done.
    + by intros [= <-].
  - split; intros v; [split|]; [done|by intros [? _]|by intros [= <-]].
Qed.

(** X4: the generic [GetErr] returns the value of the generic [Get]; its error
    is nil exactly when [Get] succeeds, [ErrKeyNotFound] exactly when the key
    is absent, and the cast error naming [T] and the actual type exactly when
    the key holds a value of another type. *)
Theorem GetErr_cases (T : reflect.rtype) (c : Config.t) (key : string) :
  (GetErr T c key).1 = (Get T c key).1 ∧
  ((GetErr T c key).2 = None ↔ (Get T c key).2 = true) ∧
  ((GetErr T c key).2 = Some ErrKeyNotFound ↔ Config.Config c !! key = None) ∧
  (∀ got, (GetErr T c key).2 = Some (ErrCast T got) ↔
          ∃ v, Config.Config c !! key = Some v ∧ Value.TypeOf v = got ∧ got ≠ Some T).
Proof.
  unfold GetErr, Get, Config.Get. destruct (Config.Config c !! key) as [x|]; simpl.
  - case_bool_decide as Ht; simpl; split_and!; try done.
    + intros got. split; [done|]. intros (v & [= <-] & <- & Hne). done.
    + intros got. split.
      * intros [= <-]. by exists x.
      * intros (v & [= <-] & <- & _). done.
  - split_and!; try done. intros got. split; [done|]. intros (v & ? & _). done.
Qed.

End store_more.

(** ** The typed keys *)

Section keys_more.
Context `{GoLib}.

(** [Get] is [GetErr] with the default in place of the error. *)
Lemma Key_Get_of_GetErr (k : Key.t) (c : Config.t) :
  Key.Get k c =
    match Key.GetErr k c with
    | Ret (v, None) => Ret v
    | Ret (_, Some _) => Ret (Key.Default k)
    | Panic => Panic
    end.
Proof.
  unfold Key.Get, Key.GetErr.
  destruct (Config.Get c (Key.Key k)) as [v ok].
  destruct ok; simpl; [|done].
  case_bool_decide; [done|].
  destruct (Value.CanConvert v (Key.T k)) as [[]|];
  destruct (assert_type (Value.Convert v (Key.T k)) (Key.T k));
  destruct v as [|[n|] b|n ik z|n fk f|[n|] s|n l|n m|t];
    repeat (case_bool_decide || case_match); by simplify_eq/=.
Qed.

(** Both methods read the store through the entry of the key only. *)
Lemma Key_Get_entry (k : Key.t) (c c' : Config.t) :
  Config.Config c !! Key.Key k = Config.Config c' !! Key.Key k →
  Key.Get k c = Key.Get k c' ∧ Key.GetErr k c = Key.GetErr k c'.
Proof. unfold Key.Get, Key.GetErr, Config.Get. by intros ->. Qed.

(** The statements after the type switch, for a value that is not nil. *)
Lemma Key_Get_convert (k : Key.t) (c : Config.t) (v : value) vt :
  Config.Config c !! Key.Key k = Some v →
  Value.TypeOf v = Some vt → vt ≠ Key.T k →
  vt ≠ bool_t ∨ reflect.kind (Key.T k) ≠ reflect.String →
  vt ≠ string_t ∨ reflect.kind (Key.T k) ≠ reflect.Bool
    ∨ (∃ e, strconv.ParseBool (string_of v) = inr e) →
  Key.GetErr k c =
    if Value.ConvertibleTo vt (Key.T k) then Ret (Value.Convert v (Key.T k), None)
    else Ret (Value.Zero (Key.T k), Some (ErrCast (Key.T k) (Some vt))).
Proof.
  intros Hv Ht Hne Hb Hs. unfold Key.GetErr. rewrite (Config_Get_Some _ _ _ Hv). simpl.
  rewrite Ht. rewrite bool_decide_eq_false_2 by congruence.
  assert (Hrest :
    match Value.CanConvert v (Key.T k) with
    | Ret true =>
        match assert_type (Value.Convert v (Key.T k)) (Key.T k) with
        | Ret x => Ret (x, None)
        | Panic => Panic
        end
    | Ret false => Ret (Value.Zero (Key.T k), Some (ErrCast (Key.T k) (Some vt)))
    | Panic => Panic
    end =
    if Value.ConvertibleTo vt (Key.T k) then Ret (Value.Convert v (Key.T k), None)
    else Ret (Value.Zero (Key.T k), Some (ErrCast (Key.T k) (Some vt)))).
  { pose proof (Convert_TypeOf v (Key.T k)) as Hc. unfold Value.CanConvert in *.
    rewrite Ht in *. destruct (Value.ConvertibleTo vt (Key.T k)); [|done].
    unfold assert_type. by rewrite bool_decide_eq_true_2 by auto. }
  destruct v as [|[n|] b|n ik z|n fk f|[n|] s|n l|n m|t]; simplify_eq/=; try done.
  - destruct Hb as [|Hb]; [done|]. by rewrite bool_decide_eq_false_2.
  - destruct Hs as [|[Hs|[e Hs]]]; [done| |].
    + by rewrite bool_decide_eq_false_2.
    + case_bool_decide; [|done]. by rewrite Hs.
Qed.

(** X5: the typed key extends the generic getter: when [Get[T]] finds a value
    under the name of the key, [Key.Get] and [Key.GetErr] return that value. *)
Theorem Key_Get_extends_Get (k : Key.t) (c : Config.t) (v : value) :
  Get (Key.T k) c (Key.Key k) = (v, true) →
  Key.Get k c = Ret v ∧ Key.GetErr k c = Ret (v, None).
Proof.
  unfold Get, Key.Get, Key.GetErr.
  destruct (Config.Get c (Key.Key k)) as [x ok]. destruct ok; simpl; [|done].
  case_bool_decide; [|done]. by intros [= <-].
Qed.

(** X6: a value of type [T] written with [Key.Put] is what [Key.Get] and
    [Key.GetErr] read. *)
Theorem Key_Put_Get (k : Key.t) (c : Config.t) (v : value) :
  Value.TypeOf v = Some (Key.T k) →
  Key.Get k (Key.Put k c v) = Ret v ∧ Key.GetErr k (Key.Put k c v) = Ret (v, None).
Proof.
  intros Ht. rewrite Key_Get_of_GetErr.
  by rewrite (Key_GetErr_Put k c v Ht).
Qed.

(** X7: a [Put] under another name changes nothing for the key: [Get] and
    [GetErr] return what they returned, and [Sync] ends as it did and leaves
    the store it left, with the other entry added. *)
Theorem Key_Get_frame (k : Key.t) (c : Config.t) (key : string) (val : value) :
  key ≠ Key.Key k →
  Key.Get k (Config.Put c key val) = Key.Get k c ∧
  Key.GetErr k (Config.Put c key val) = Key.GetErr k c ∧
  Key.Sync k (Config.Put c key val)
    = (Config.Put (Key.Sync k c).1 key val, (Key.Sync k c).2).
Proof.
  intros Hne.
  destruct (Key_Get_entry k (Config.Put c key val) c) as [Hg He].
  { simpl. by rewrite lookup_insert_ne. }
  split; [done|]. split; [done|].
  unfold Key.Sync. rewrite He.
  destruct (Key.GetErr k c) as [[x [e|]]|]; [|done|done].
  simpl. f_equal. unfold Key.Put, Config.Put. simpl. by rewrite insert_insert_ne.
Qed.

(** X8: whatever [Get] and [GetErr] return has the type [T] of the key. *)
Theorem Key_results_typed (k : Key.t) (c : Config.t) :
  (∀ x, Key.Get k c = Ret x → Value.TypeOf x = Some (Key.T k)) ∧
  (∀ x e, Key.GetErr k c = Ret (x, e) → Value.TypeOf x = Some (Key.T k)).
Proof. split; [apply Key_Get_typed | apply Key_GetErr_typed]. Qed.

(** X9: a stored float read through a key of an integer type is cut to its
    integer part and wrapped to the width of the type, when that part fits
    [int64] (signed types) or [uint64] (unsigned types). *)
Theorem Key_Get_float_as_integer (k : Key.t) (c : Config.t) n fk f ik z :
  Config.Config c !! Key.Key k = Some (VFloat n fk f) →
  reflect.kind (Key.T k) = reflect.Integer ik →
  Value.trunc f = Some z →
  (if reflect.signed ik then - 2 ^ 63 ≤ z < 2 ^ 63 else 0 ≤ z < 2 ^ 64) →
  Key.Get k c = Ret (VInt (reflect.Name (Key.T k)) ik (Value.wrap ik z)).
Proof.
  intros Hv Hk Hz Hr. rewrite Key_Get_of_GetErr.
  rewrite (Key_Get_convert k c (VFloat n fk f) (reflect.MkType n (reflect.Float fk))); try done.
  - unfold Value.ConvertibleTo, Value.Convert, Value.float_to_int64, Value.float_to_uint64.
    simpl. rewrite Hk, Hz. destruct (reflect.signed ik).
    + destruct Hr as [?%Z.leb_le ?%Z.ltb_lt]. by simplify_option_eq; rewrite ?andb_true_intro.
    + destruct Hr as [?%Z.leb_le ?%Z.ltb_lt]. by simplify_option_eq; rewrite ?andb_true_intro.
  - intros Heq. by rewrite <- Heq in Hk.
  - by left.
  - by left.
Qed.

(** X10: a stored integer read through a key of a string type is converted as
    a code point, not printed in decimal: the result is the UTF-8 encoding
    of the rune, or of U+FFFD when the integer is no valid rune. *)
Theorem Key_Get_integer_as_string (k : Key.t) (c : Config.t) n ik z :
  Config.Config c !! Key.Key k = Some (VInt n ik z) →
  reflect.kind (Key.T k) = reflect.String →
  Key.Get k c = Ret (VString (reflect.Name (Key.T k)) (Value.cvtIntString z)).
Proof.
  intros Hv Hk. rewrite Key_Get_of_GetErr.
  rewrite (Key_Get_convert k c (VInt n ik z) (reflect.MkType n (reflect.Integer ik))); try done.
  - unfold Value.ConvertibleTo, Value.Convert. simpl. by rewrite Hk.
  - intros Heq. by rewrite <- Heq in Hk.
  - by left.
  - by left.
Qed.

(** X11: when the stored value has a type that does not convert to [T] and
    the bridge between booleans and strings does not apply, [Get] returns
    the default and [GetErr] the zero value with the cast error naming [T]
    and the stored type. *)
Theorem Key_Get_not_convertible (k : Key.t) (c : Config.t) (v : value) vt :
  Config.Config c !! Key.Key k = Some v →
  Value.TypeOf v = Some vt →
  Value.ConvertibleTo vt (Key.T k) = false →
  vt ≠ bool_t ∨ reflect.kind (Key.T k) ≠ reflect.String →
  vt ≠ string_t ∨ reflect.kind (Key.T k) ≠ reflect.Bool
    ∨ (∃ e, strconv.ParseBool (string_of v) = inr e) →
  Key.Get k c = Ret (Key.Default k) ∧
  Key.GetErr k c = Ret (Value.Zero (Key.T k), Some (ErrCast (Key.T k) (Some vt))).
Proof.
  intros Hv Ht Hc Hb Hs. rewrite Key_Get_of_GetErr.
  rewrite (Key_Get_convert k c v vt), Hc; try done.
  intros ->. destruct (Key.T k) as [n []]; unfold Value.ConvertibleTo in Hc; simpl in Hc;
    by rewrite ?bool_decide_eq_true_2 in Hc.
Qed.

(** X12: on a key holding the nil interface, [Get], [GetErr] and [Sync] panic. *)
Theorem Key_nil_entry_panics (k : Key.t) (c : Config.t) :
  Config.Config c !! Key.Key k = Some VNil →
  Key.Get k c = Panic ∧ Key.GetErr k c = Panic ∧ Key.Sync k c = (c, Panic).
Proof.
  intros Hv.
  assert (Key.GetErr k c = Panic) as He.
  { unfold Key.GetErr. by rewrite (Config_Get_Some _ _ _ Hv). }
  rewrite Key_Get_of_GetErr. unfold Key.Sync. by rewrite He.
Qed.

(** X13: for a key of a defined type, the bridge panics: a stored boolean read
    through a defined string type, and a stored boolean literal read through
    a defined boolean type, fail the type assertion. *)
Theorem Key_bridge_defined_type_panics (k : Key.t) (c : Config.t) (name : string) :
  reflect.Name (Key.T k) = Some name →
  (∀ b, reflect.kind (Key.T k) = reflect.String →
        Config.Config c !! Key.Key k = Some (VBool None b) → Key.Get k c = Panic) ∧
  (∀ s b, reflect.kind (Key.T k) = reflect.Bool →
          Config.Config c !! Key.Key k = Some (VString None s) →
          strconv.ParseBool s = inl b → Key.Get k c = Panic).
Proof.
  intros Hn. split.
  - intros b Hk Hv. unfold Key.Get. rewrite (Config_Get_Some _ _ _ Hv). simpl.
    destruct (Key.T k) as [n kd]. simpl in *. subst.
    unfold assert_type. simpl. by repeat (case_bool_decide; simplify_eq/=).
  - intros s b Hk Hv Hs. unfold Key.Get. rewrite (Config_Get_Some _ _ _ Hv). simpl.
    destruct (Key.T k) as [n kd]. simpl in *. subst. rewrite Hs.
    unfold assert_type. simpl. by repeat (case_bool_decide; simplify_eq/=).
Qed.

(** X14: [Sync] never changes what [Get] returns, and after a [Sync] that
    returns, [GetErr] succeeds. *)
Theorem Sync_post (k : Key.t) (c : Config.t) :
  Key.Get k (Key.Sync k c).1 = Key.Get k c ∧
  ((Key.Sync k c).2 = Ret tt → ∃ v, Key.GetErr k (Key.Sync k c).1 = Ret (v, None)).
Proof.
  unfold Key.Sync. rewrite (Key_Get_of_GetErr k c).
  destruct (Key.GetErr k c) as [[x [e|]]|] eqn:Hg; simpl.
  - pose proof (Key_GetErr_Put k c (Key.Default k) (Key.Default_T k)) as Hp.
    rewrite Key_Get_of_GetErr, Hp. split; [done|]. by eexists.
  - rewrite Key_Get_of_GetErr, Hg. split; [done|]. by eexists.
  - rewrite Key_Get_of_GetErr, Hg. done.
Qed.

End keys_more.

(** ** Timestamp keys and the earlier generation *)

Section generations.
Context `{GoLib}.

(** The earlier [Key] is the later one with the zero value as default. *)
Lemma Key1_is_Key_with_zero_default (k1 : Key1.t) (k : Key.t) (c : Config.t) :
  Key.T k = Key1.T k1 → Key.Key k = Key1.Key k1 →
  Key.Default k = Value.Zero (Key1.T k1) →
  Key1.Get k1 c = Key.Get k c ∧ Key1.GetErr k1 c = Key.GetErr k c.
Proof.
  intros HT HK HD. unfold Key1.Get, Key1.GetErr, Key.Get, Key.GetErr.
  by rewrite HT, HK, HD.
Qed.

(** X15: the earlier [TimeKey] behaves as the later one with the zero time as
    default, [UnmarshalText] rejecting the empty text. *)
Theorem TimeKey1_is_TimeKey_with_zero_default (k1 : TimeKey1.t) (k : TimeKey.t) (c : Config.t) e :
  TimeKey.Key k = TimeKey1.Key k1 → TimeKey.Default k = zeroTime →
  UnmarshalText EmptyString = inr e →
  TimeKey1.Get k1 c = TimeKey.Get k c ∧ TimeKey1.GetErr k1 c = TimeKey.GetErr k c.
Proof.
  intros HK HD He.
  destruct (Key1_is_Key_with_zero_default (TimeKey1.ck k1) (TimeKey.ck k) c) as [Hg Hge];
    [done|by simpl|done|].
  unfold TimeKey1.Get, TimeKey1.GetErr, TimeKey.Get, TimeKey.GetErr.
  rewrite Hg, Hge, Key_Get_of_GetErr, HD.
  destruct (Key.GetErr (TimeKey.ck k) c) as [[x [err|]]|]; [|done|done].
  simpl. by rewrite He.
Qed.

(** X16: on a key holding a string, [TimeKey.Get] returns the time the text
    parses to, or the default when it does not parse; [TimeKey.GetErr]
    returns the time, or the zero time with the error of the parse. *)
Theorem TimeKey_Get_string (k : TimeKey.t) (c : Config.t) (s : string) :
  Config.Config c !! TimeKey.Key k = Some (VString None s) →
  TimeKey.Get k c =
    Ret (match UnmarshalText s with inl t => t | inr _ => TimeKey.Default k end) ∧
  TimeKey.GetErr k c =
    Ret (match UnmarshalText s with inl t => (t, None) | inr e => (zeroTime, Some e) end).
Proof.
  intros Hv. unfold TimeKey.Get, TimeKey.GetErr.
  rewrite (Key_GetErr_case_T (TimeKey.ck k) c (VString None s)) by done.
  simpl. by destruct (UnmarshalText s).
Qed.

(** X17: [TimeKey.Get] and [TimeKey.GetErr] agree: on an absent key they give
    the default and [ErrKeyNotFound]; when [GetErr] succeeds [Get] returns
    the same time; when [GetErr] fails it returns the zero time and [Get]
    the default; one panics exactly when the other does. *)
Theorem TimeKey_Get_GetErr (k : TimeKey.t) (c : Config.t) :
  (Config.Config c !! TimeKey.Key k = None →
     TimeKey.Get k c = Ret (TimeKey.Default k) ∧
     TimeKey.GetErr k c = Ret (zeroTime, Some ErrKeyNotFound)) ∧
  (∀ t, TimeKey.GetErr k c = Ret (t, None) → TimeKey.Get k c = Ret t) ∧
  (∀ t e, TimeKey.GetErr k c = Ret (t, Some e) →
     TimeKey.Get k c = Ret (TimeKey.Default k) ∧ t = zeroTime) ∧
  (TimeKey.GetErr k c = Panic ↔ TimeKey.Get k c = Panic).
Proof.
  unfold TimeKey.Get, TimeKey.GetErr. split_and!.
  - intros Hn. unfold Key.GetErr. by rewrite Config_Get_None.
  - intros t. destruct (Key.GetErr (TimeKey.ck k) c) as [[x [err|]]|]; [done| |done].
    destruct (UnmarshalText (string_of x)); by intros [= <-].
  - intros t e. destruct (Key.GetErr (TimeKey.ck k) c) as [[x [err|]]|]; [by intros [= <- <-]| |done].
    destruct (UnmarshalText (string_of x)); by intros [= <- <-].
  - destruct (Key.GetErr (TimeKey.ck k) c) as [[x [err|]]|]; [done| |done].
    by destruct (UnmarshalText (string_of x)).
Qed.

End generations.

(** ** The line reader *)

Lemma unlines_app (ls1 ls2 : list string) :
  unlines (ls1 ++ ls2) = (unlines ls1 +:+ unlines ls2)%string.
Proof.
  induction ls1 as [|l ls1 IH]; [done|]. simpl.
  by rewrite IH, append_assoc, append_cons.
Qed.

Lemma short_line_spec (l : string) :
  short_line l = true →
  contains bufio.LF l = false ∧ Z.of_nat (String.length l) < bufio.MaxScanTokenSize.
Proof.
  unfold short_line. intros [Hc Hl]%andb_prop.
  apply negb_true_iff in Hc. by apply Z.ltb_lt in Hl.
Qed.

(** Scanning goes through text without line feed by extending the current line. *)
Lemma scan_from_app (l cur rest : string) :
  contains bufio.LF l = false →
  bufio.scan_from cur (l +:+ rest) = bufio.scan_from (cur +:+ l) rest.
Proof.
  revert cur. induction l as [|a l IH]; intros cur Hl.
  - by rewrite append_nil_l, append_nil_r.
  - apply orb_false_elim in Hl as [Ha Hl].
    rewrite append_cons, scan_from_cons, Ha, IH by done.
    by rewrite append_assoc.
Qed.

(** Once the current line has filled the buffer the scan fails. *)
Lemma scan_from_long (data cur : string) :
  bufio.MaxScanTokenSize ≤ Z.of_nat (String.length cur) →
  bufio.scan_from cur data = ([], Some ErrTooLong).
Proof.
  revert cur. induction data as [|a data IH]; intros cur Hlen.
  - simpl. rewrite bool_decide_eq_false_2.
    + by destruct (Z.leb_spec bufio.MaxScanTokenSize (Z.of_nat (String.length cur))); [|lia].
    + intros ->. unfold bufio.MaxScanTokenSize in Hlen. simpl in Hlen. lia.
  - rewrite scan_from_cons. destruct (Ascii.eqb a bufio.LF).
    + by destruct (Z.leb_spec bufio.MaxScanTokenSize (Z.of_nat (String.length cur))); [|lia].
    + apply IH. rewrite length_append. simpl. lia.
Qed.


Lemma ScanLines_unlines (ls : list string) :
  Forall (λ l, short_line l = true) ls →
  bufio.ScanLines (unlines ls) = (bufio.dropCR <$> ls, None).
Proof.
  unfold bufio.ScanLines. induction 1 as [|l ls Hl _ IH]; [done|].
  apply short_line_spec in Hl as [Hc Hlen]. simpl.
  by rewrite scan_from_line, IH.
Qed.








Section reader.
Context `{GoLib}.


Lemma parseFileLine_unlines (ls : list string) :
  Forall (λ l, short_line l = true) ls →
  parseFileLine (unlines ls) = (foldl parseLine ∅ (bufio.dropCR <$> ls), None).
Proof. intros Hls. unfold parseFileLine. by rewrite ScanLines_unlines. Qed.



(** X18: appending the line k=text to a file of whole lines sets [k] to the
    value of the text, whatever the file held for [k]: the later line wins. *)
Theorem parseFileLine_append_line (ls : list string) (k text : string) :
  Forall (λ l, short_line l = true) ls →
  short_line (k +:+ "=" +:+ text) = true →
  gostrings.HasPrefix k "#" = false → contains "=" k = false →
  parseFileLine (unlines ls +:+ (k +:+ "=" +:+ text) +:+ String bufio.LF EmptyString) =
    (<[k := line_value (bufio.dropCR text)]> (parseFileLine (unlines ls)).1, None).
Proof.
  intros Hls Hl Hc Hk.
  replace (unlines ls +:+ (k +:+ "=" +:+ text) +:+ String bufio.LF EmptyString)%string
    with (unlines (ls ++ [(k +:+ "=" +:+ text)%string])).
  2:{ rewrite unlines_app. simpl. done. }
  rewrite !parseFileLine_unlines; [|done|].
  2:{ apply Forall_app. split; [done|]. by constructor. }
  rewrite fmap_app, foldl_app. simpl. f_equal.
  rewrite append_cons, append_nil_l, dropCR_append, dropCR_separator by done.
  unfold line_value. apply (parseLine_key_value _ k (bufio.dropCR text)); done.
Qed.



(** X21: a line that fills the scanner's buffer stops the reading with
    [ErrTooLong]: the entries of the lines before it are returned, the rest
    of the file is not read. *)
Theorem parseFileLine_long_line (ls : list string) (l rest : string) :
  Forall (λ l, short_line l = true) ls →
  contains bufio.LF l = false →
  bufio.MaxScanTokenSize ≤ Z.of_nat (String.length l) →
  parseFileLine (unlines ls +:+ l +:+ rest) =
    ((parseFileLine (unlines ls)).1, Some ErrTooLong).
Proof.
  intros Hls Hl Hlen. rewrite parseFileLine_unlines by done.
  unfold parseFileLine, bufio.ScanLines.
  assert (bufio.scan_from EmptyString (unlines ls +:+ l +:+ rest)
          = (bufio.dropCR <$> ls, Some ErrTooLong)) as ->; [|done].
  induction Hls as [|l0 ls [Hc0 Hl0]%short_line_spec _ IH].
  - rewrite append_nil_l, scan_from_app, append_nil_l by done. by apply scan_from_long.
  - simpl. rewrite append_assoc, append_cons. by rewrite scan_from_line, IH.
Qed.


(** X23: [LoadConfigFile] returns a nil store exactly when [os.Open] fails with
    an error other than not-exist, and returns that error; it never returns
    a nil store with a nil error. *)
Theorem LoadConfigFile_nil_store fs (filepath : string) (configType : ConfigType) :
  (∀ err, LoadConfigFile fs filepath configType = (None, Some err) ↔
          os.Open fs filepath = inr err ∧ os.IsNotExist err = false) ∧
  ((LoadConfigFile fs filepath configType).1 = None →
   (LoadConfigFile fs filepath configType).2 ≠ None).
Proof.
  unfold LoadConfigFile. destruct (os.Open fs filepath) as [data|e].
  - split; [intros err; split; [|by intros [? _]]|];
      repeat (case_bool_decide || case_match); simplify_eq/=; done.
  - destruct (os.IsNotExist e) eqn:Hn; simpl; split; try done.
    + intros err. split; [done|]. intros [[= <-] ?]. congruence.
    + intros err. split; [by intros [= <-]|by intros [[= <-] _]].
Qed.

(** X24: with an unrecognised kind, a file that opens is decoded by the JSON
    decoder and the store records the kind [Json]; when the file does not
    exist the store keeps the unrecognised kind. *)
Theorem LoadConfigFile_unrecognised fs (filepath : string) (configType : ConfigType) :
  configType ≠ Json → configType ≠ Line →
  (∀ data, os.Open fs filepath = inl data →
     LoadConfigFile fs filepath configType =
       (Some {| Config.Config := (json_Decode data).1; Config.Filepath := filepath;
                Config.Type_ := Json |}, (json_Decode data).2)) ∧
  (os.files fs !! filepath = None →
     LoadConfigFile fs filepath configType =
       (Some {| Config.Config := ∅; Config.Filepath := filepath;
                Config.Type_ := configType |}, None)).
Proof.
  intros Hj Hl. unfold LoadConfigFile, parseFileJSON. split.
  - intros data ->. rewrite !bool_decide_eq_false_2 by done. by destruct (json_Decode data).
  - unfold os.Open. by intros ->.
Qed.

End reader.

(** ** Saving *)





Section saving.
Context `{GoLib}.

(** [writeFileLine] touches the file [f] only. *)
Lemma writeFileLine_frame fs f entries (p : string) :
  p ≠ f →
  os.files (writeFileLine fs f entries).1 !! p = os.files fs !! p ∧
  os.denied (writeFileLine fs f entries).1 = os.denied fs.
Proof.
  intros Hne. revert fs. induction entries as [|[k v] entries IH]; intros fs; [done|].
  simpl. destruct (Value.TypeOf v) as [rt|]; [|done].
  destruct (line_kind (reflect.kind rt)); [|apply IH].
  destruct (IH (os.Write fs f (Sprintf_line k v)).1) as [-> ->].
  unfold os.Write. case_match; simpl; by rewrite lookup_insert_ne.
Qed.



(** X25: [SaveFile] touches no file but its own, and leaves the map and the
    path of the store as they are; the kind stays or becomes [Json]. *)
Theorem SaveFile_frame fs (c : Config.t) entries fs' c' r :
  SaveFile fs c entries = (fs', c', r) →
  (∀ p, p ≠ Config.Filepath c → os.files fs' !! p = os.files fs !! p) ∧
  Config.Config c' = Config.Config c ∧ Config.Filepath c' = Config.Filepath c ∧
  (Config.Type_ c' = Config.Type_ c ∨ Config.Type_ c' = Json).
Proof.
  unfold SaveFile, os.Create.
  case_bool_decide as Hd; [intros [= <- <- <-]; auto|].
  set (fs1 := {| os.files := _ |}).
  assert (∀ p, p ≠ Config.Filepath c → os.files fs1 !! p = os.files fs !! p) as H1.
  { intros p Hp. simpl. by rewrite lookup_insert_ne. }
  assert (∀ p, p ≠ Config.Filepath c →
            os.files (writeFileLine fs1 (Config.Filepath c) entries).1 !! p = os.files fs !! p)
    as Hw.
  { intros p Hp. destruct (writeFileLine_frame fs1 (Config.Filepath c) entries p Hp) as [-> _].
    by apply H1. }
  destruct (writeFileLine fs1 (Config.Filepath c) entries) as [fs2 r2]. simpl in Hw.
  repeat case_bool_decide; try (intros [= <- <- <-]; by auto).
  unfold writeFileJSON, os.Write.
  repeat case_match; simplify_eq/=; intros [= <- <- <-]; split_and!; auto;
    intros p Hp; simpl; rewrite ?lookup_insert_ne by done; first [done | by apply H1].
Qed.

(** X26: with the kinds [Json] and [Line], [SaveFile] returns an error exactly
    when the file cannot be created; the file system and the store are then
    unchanged. *)
Theorem SaveFile_line_error fs (c : Config.t) entries :
  Config.Type_ c = Json ∨ Config.Type_ c = Line →
  (∀ fs' c' err, SaveFile fs c entries = (fs', c', Ret (Some err)) ↔
     Config.Filepath c ∈ os.denied fs ∧ err = EACCES (Config.Filepath c) ∧
     fs' = fs ∧ c' = c).
Proof.
  intros Hty fs' c' err. split.
  - intros Hs. pose proof (SaveFile_error fs c entries fs' c' err) as He.
    destruct Hty as [Hty|Hty]; (specialize (He (ltac:(auto)) Hs));
      unfold os.Create in He; case_bool_decide; simplify_eq;
      unfold SaveFile, os.Create in Hs; rewrite bool_decide_eq_true_2 in Hs by done;
      by simplify_eq.
  - intros (Hd & -> & -> & ->). unfold SaveFile, os.Create.
    by rewrite bool_decide_eq_true_2.
Qed.

(** X27: with the kinds [Json] and [Line], [SaveFile] panics when the map holds
    a nil value, whatever the order of iteration. *)
Theorem SaveFile_nil_panics fs (c : Config.t) entries (k : string) :
  Config.Type_ c = Json ∨ Config.Type_ c = Line →
  Config.Filepath c ∉ os.denied fs →
  (k, VNil) ∈ entries →
  (SaveFile fs c entries).2 = Panic.
Proof.
  intros Hty Hd Hin. unfold SaveFile, os.Create. rewrite bool_decide_eq_false_2 by done.
  set (fs1 := {| os.files := _ |}).
  assert ((writeFileLine fs1 (Config.Filepath c) entries).2 = Panic) as Hw.
  { generalize fs1. clear fs1. induction entries as [|[k' v] entries IH]; intros fs1.
    - by apply elem_of_nil in Hin.
    - apply elem_of_cons in Hin as [[= <- <-]|Hin]; [done|]. simpl.
      destruct (Value.TypeOf v); [|done]. case_match; by apply IH. }
  destruct (writeFileLine fs1 (Config.Filepath c) entries) as [fs2 r]. simpl in Hw. subst r.
  destruct Hty as [-> | ->]; by repeat case_bool_decide.
Qed.

(** X28: with an unrecognised kind, [SaveFile] records the kind [Json] and
    writes the JSON text and a line feed. An error of the encoder is
    returned and leaves the file created and empty; the error of a write
    that does not fit the device is returned. *)
Theorem SaveFile_unrecognised fs (c : Config.t) entries :
  Config.Type_ c ≠ Json → Config.Type_ c ≠ Line →
  Config.Filepath c ∉ os.denied fs →
  let f := Config.Filepath c in
  let c' := {| Config.Config := Config.Config c; Config.Filepath := f; Config.Type_ := Json |} in
  let fs1 := (os.Create fs f).1 in
  (∀ err, json_Marshal (Config.Config c) = inr err →
     SaveFile fs c entries = (fs1, c', Ret (Some err)) ∧
     os.files fs1 !! f = Some EmptyString) ∧
  (∀ b, json_Marshal (Config.Config c) = inl b →
     (String.length b + 1 ≤ os.free fs)%nat →
     ∃ fs', SaveFile fs c entries = (fs', c', Ret None) ∧
            os.files fs' !! f = Some (b +:+ String bufio.LF EmptyString)%string) ∧
  (∀ b, json_Marshal (Config.Config c) = inl b →
     (os.free fs < String.length b + 1)%nat →
     ∃ fs', SaveFile fs c entries = (fs', c', Ret (Some (ENOSPC f)))).
Proof.
  intros Hj Hl Hd f c' fs1. subst fs1. unfold SaveFile, os.Create, writeFileJSON.
  rewrite !bool_decide_eq_false_2 by done. simpl. fold f. split_and!.
  - intros err ->. split; [done|]. apply lookup_insert_eq.
  - intros b -> Hfit. unfold os.Write. simpl.
    rewrite length_append. simpl.
    destruct (Nat.leb_spec (String.length b + 1) (os.free fs)); [|lia].
    eexists. split; [done|]. simpl. by rewrite !lookup_insert_eq.
  - intros b -> Hfit. unfold os.Write. simpl.
    rewrite length_append. simpl.
    destruct (Nat.leb_spec (String.length b + 1) (os.free fs)); [lia|].
    by eexists.
Qed.



End saving.

(** ** Examples *)

Section examples.
#[local] Existing Instance scenario.lib.

Lemma Config_Put_Get_witness :
  "name"%string ≠ "port"%string ∧
  Config.Get (Config.Put scenario.app_conf "port" (VInt None reflect.Int 80)) "name"
    = Config.Get scenario.app_conf "name".
Proof.
  split; [discriminate|].
  apply (proj1 (proj2 (Config_Put_Get scenario.app_conf "port" (VInt None reflect.Int 80)))).
  discriminate.
Defined.

Lemma Get_ok_iff_witness :
  Get string_t scenario.app_conf "name" = (VString None "x", true) ∧
  Get string_t scenario.app_conf "tags" = (VString None EmptyString, false) ∧
  VString None EmptyString = Value.Zero string_t.
Proof.
  split; [|split; [vm_compute; reflexivity|]].
  - apply (proj1 (Get_ok_iff string_t scenario.app_conf "name") (VString None "x")).
    split; vm_compute; reflexivity.
  - apply (proj2 (Get_ok_iff string_t scenario.app_conf "tags")).
    vm_compute; reflexivity.
Defined.

Lemma GetErr_cases_witness :
  Config.Config scenario.app_conf !! "port"%string = None ∧
  (GetErr string_t scenario.app_conf "port").2 = Some ErrKeyNotFound.
Proof.
  split; [vm_compute; reflexivity|].
  apply (proj1 (proj2 (proj2 (GetErr_cases string_t scenario.app_conf "port")))).
  vm_compute; reflexivity.
Defined.

Lemma Key_Get_extends_Get_witness :
  Get string_t scenario.app_conf "name" = (VString None "x", true) ∧
  Key.Get (string_key "name" "anon") scenario.app_conf = Ret (VString None "x") ∧
  Key.GetErr (string_key "name" "anon") scenario.app_conf = Ret (VString None "x", None).
Proof.
  split; [vm_compute; reflexivity|].
  apply (Key_Get_extends_Get (string_key "name" "anon") scenario.app_conf (VString None "x")).
  vm_compute; reflexivity.
Defined.

Lemma Key_Put_Get_witness :
  Key.Get (example.int_key "port" 80)
      (Key.Put (example.int_key "port" 80) scenario.app_conf (VInt None reflect.Int 8080))
    = Ret (VInt None reflect.Int 8080) ∧
  Key.GetErr (example.int_key "port" 80)
      (Key.Put (example.int_key "port" 80) scenario.app_conf (VInt None reflect.Int 8080))
    = Ret (VInt None reflect.Int 8080, None).
Proof.
  apply (Key_Put_Get (example.int_key "port" 80) scenario.app_conf (VInt None reflect.Int 8080)).
  reflexivity.
Defined.

Lemma Key_Get_frame_witness :
  Key.Get (string_key "name" "anon")
      (Config.Put scenario.app_conf "port" (VInt None reflect.Int 80))
    = Key.Get (string_key "name" "anon") scenario.app_conf ∧
  Key.GetErr (string_key "name" "anon")
      (Config.Put scenario.app_conf "port" (VInt None reflect.Int 80))
    = Key.GetErr (string_key "name" "anon") scenario.app_conf ∧
  Key.Sync (string_key "name" "anon")
      (Config.Put scenario.app_conf "port" (VInt None reflect.Int 80))
    = (Config.Put (Key.Sync (string_key "name" "anon") scenario.app_conf).1 "port"
         (VInt None reflect.Int 80),
       (Key.Sync (string_key "name" "anon") scenario.app_conf).2).
Proof.
  apply (Key_Get_frame (string_key "name" "anon") scenario.app_conf "port"
           (VInt None reflect.Int 80)).
  discriminate.
Defined.

Lemma Key_results_typed_witness :
  Key.Get (string_key "debug" "no") example.mixed = Ret (VString None "true") ∧
  Value.TypeOf (VString None "true") = Some string_t.
Proof.
  split; [vm_compute; reflexivity|].
  apply (proj1 (Key_results_typed (string_key "debug" "no") example.mixed)).
  vm_compute; reflexivity.
Defined.

Lemma Key_Get_float_as_integer_witness :
  Key.Get (example.int_key "port" 80) example.mixed = Ret (VInt None reflect.Int 8080).
Proof.
  apply (Key_Get_float_as_integer (example.int_key "port" 80) example.mixed
           None reflect.Float64 (Value.float64_of_Z 8080) reflect.Int 8080).
  - vm_compute; reflexivity.
  - reflexivity.
  - vm_compute; reflexivity.
  - simpl. lia.
Defined.

Lemma Key_Get_integer_as_string_witness :
  Key.Get (string_key "code" "none") example.mixed
    = Ret (VString None (Value.cvtIntString 8364)) ∧
  String.length (Value.cvtIntString 8364) = 3%nat.
Proof.
  split; [|vm_compute; reflexivity].
  apply (Key_Get_integer_as_string (string_key "code" "none") example.mixed
           None reflect.Int 8364).
  - vm_compute; reflexivity.
  - reflexivity.
Defined.

Lemma Key_Get_not_convertible_witness :
  Key.Get (example.int_key "name" 80) example.mixed = Ret (VInt None reflect.Int 80) ∧
  Key.GetErr (example.int_key "name" 80) example.mixed
    = Ret (VInt None reflect.Int 0, Some (ErrCast example.int_t (Some string_t))).
Proof.
  apply (Key_Get_not_convertible (example.int_key "name" 80) example.mixed
           (VString None "x") string_t).
  - vm_compute; reflexivity.
  - reflexivity.
  - reflexivity.
  - left. discriminate.
  - right. left. discriminate.
Defined.

Lemma Key_nil_entry_panics_witness :
  Key.Get (string_key "ghost" "none") example.mixed = Panic ∧
  Key.GetErr (string_key "ghost" "none") example.mixed = Panic ∧
  Key.Sync (string_key "ghost" "none") example.mixed = (example.mixed, Panic).
Proof.
  apply (Key_nil_entry_panics (string_key "ghost" "none") example.mixed).
  vm_compute; reflexivity.
Defined.

Lemma Key_bridge_defined_type_panics_witness :
  Key.Get (example.name_key "debug" "anon") example.mixed = Panic.
Proof.
  apply (proj1 (Key_bridge_defined_type_panics (example.name_key "debug" "anon")
                  example.mixed "main.Name" eq_refl) true).
  - reflexivity.
  - vm_compute; reflexivity.
Defined.

Lemma Sync_post_witness :
  (Key.Sync (example.int_key "name" 80) example.mixed).2 = Ret tt ∧
  ∃ v, Key.GetErr (example.int_key "name" 80)
         (Key.Sync (example.int_key "name" 80) example.mixed).1 = Ret (v, None).
Proof.
  split; [vm_compute; reflexivity|].
  apply (proj2 (Sync_post (example.int_key "name" 80) example.mixed)).
  vm_compute; reflexivity.
Defined.

Lemma TimeKey1_is_TimeKey_with_zero_default_witness :
  let k1 := {| TimeKey1.Key := "since"%string |} in
  let k := {| TimeKey.Key := "since"%string; TimeKey.Default := zeroTime |} in
  TimeKey1.Get k1 example.mixed = TimeKey.Get k example.mixed ∧
  TimeKey1.GetErr k1 example.mixed = TimeKey.GetErr k example.mixed.
Proof.
  apply (TimeKey1_is_TimeKey_with_zero_default
           {| TimeKey1.Key := "since"%string |}
           {| TimeKey.Key := "since"%string; TimeKey.Default := zeroTime |}
           example.mixed (ErrTime EmptyString)); reflexivity.
Defined.

Lemma TimeKey_Get_string_witness :
  let k := {| TimeKey.Key := "name"%string; TimeKey.Default := zeroTime |} in
  TimeKey.Get k example.mixed = Ret zeroTime ∧
  TimeKey.GetErr k example.mixed = Ret (zeroTime, Some (ErrTime "x")).
Proof.
  exact (TimeKey_Get_string
           {| TimeKey.Key := "name"%string; TimeKey.Default := zeroTime |} example.mixed "x"
           ltac:(vm_compute; reflexivity)).
Defined.

Lemma TimeKey_Get_GetErr_witness :
  let k := {| TimeKey.Key := "since"%string; TimeKey.Default := zeroTime |} in
  TimeKey.Get k example.mixed = Ret zeroTime ∧
  TimeKey.GetErr k example.mixed = Ret (zeroTime, Some ErrKeyNotFound).
Proof.
  apply (proj1 (TimeKey_Get_GetErr
                  {| TimeKey.Key := "since"%string; TimeKey.Default := zeroTime |}
                  example.mixed)).
  vm_compute; reflexivity.
Defined.

Lemma parseFileLine_append_line_witness :
  parseFileLine (example.lines_file +:+ ("name" +:+ "=" +:+ "y") +:+ String bufio.LF EmptyString)
    = (<["name"%string := line_value (bufio.dropCR "y")]>
         (parseFileLine example.lines_file).1, None).
Proof.
  apply (parseFileLine_append_line ["# settings"%string; "name=x"%string] "name" "y").
  - repeat constructor.
  - vm_compute; reflexivity.
  - reflexivity.
  - reflexivity.
Defined.



Lemma parseFileLine_long_line_witness :
  parseFileLine (unlines ["name=x"%string] +:+ example.long_line +:+ "=1")
    = ((parseFileLine (unlines ["name=x"%string])).1, Some ErrTooLong).
Proof.
  apply (parseFileLine_long_line ["name=x"%string] example.long_line "=1").
  - repeat constructor.
  - vm_compute; reflexivity.
  - apply Z.leb_le. vm_compute; reflexivity.
Defined.


Lemma LoadConfigFile_nil_store_witness :
  LoadConfigFile example.fs_locked "/etc/locked.conf" Line
    = (None, Some (EACCES "/etc/locked.conf")).
Proof.
  apply (proj1 (LoadConfigFile_nil_store example.fs_locked "/etc/locked.conf" Line)).
  split; vm_compute; reflexivity.
Defined.

Lemma LoadConfigFile_unrecognised_witness :
  LoadConfigFile scenario.fs_empty "/etc/other.cfg" example.other_kind
    = (Some {| Config.Config := ∅; Config.Filepath := "/etc/other.cfg";
               Config.Type_ := example.other_kind |}, None).
Proof.
  apply (proj2 (LoadConfigFile_unrecognised scenario.fs_empty "/etc/other.cfg"
                  example.other_kind ltac:(discriminate) ltac:(discriminate))).
  vm_compute; reflexivity.
Defined.

Lemma SaveFile_frame_witness :
  (∀ p, p ≠ Config.Filepath example.other_full →
        os.files (SaveFile example.fs_lines example.other_full
                    (map_to_list (Config.Config example.other_full))).1.1 !! p
          = os.files example.fs_lines !! p) ∧
  Config.Config (SaveFile example.fs_lines example.other_full
                   (map_to_list (Config.Config example.other_full))).1.2
    = Config.Config example.other_full ∧
  Config.Filepath (SaveFile example.fs_lines example.other_full
                     (map_to_list (Config.Config example.other_full))).1.2
    = Config.Filepath example.other_full ∧
  (Config.Type_ (SaveFile example.fs_lines example.other_full
                   (map_to_list (Config.Config example.other_full))).1.2
     = Config.Type_ example.other_full ∨
   Config.Type_ (SaveFile example.fs_lines example.other_full
                   (map_to_list (Config.Config example.other_full))).1.2 = Json).
Proof.
  apply (SaveFile_frame example.fs_lines example.other_full
           (map_to_list (Config.Config example.other_full)) _ _
           (SaveFile example.fs_lines example.other_full
              (map_to_list (Config.Config example.other_full))).2).
  by destruct (SaveFile example.fs_lines example.other_full
                 (map_to_list (Config.Config example.other_full))) as [[? ?] ?].
Defined.

Lemma SaveFile_line_error_witness :
  let c := scenario.store "/etc/locked.conf" Line ∅ in
  SaveFile example.fs_locked c [] = (example.fs_locked, c, Ret (Some (EACCES "/etc/locked.conf"))).
Proof.
  apply (proj2 (SaveFile_line_error example.fs_locked
                  (scenario.store "/etc/locked.conf" Line ∅) [] (or_intror eq_refl)
                  example.fs_locked (scenario.store "/etc/locked.conf" Line ∅)
                  (EACCES "/etc/locked.conf"))).
  split; [vm_compute; reflexivity|]. split; [reflexivity|]. split; reflexivity.
Defined.

Lemma SaveFile_nil_panics_witness :
  (SaveFile scenario.fs_empty example.mixed (map_to_list (Config.Config example.mixed))).2
    = Panic.
Proof.
  apply (SaveFile_nil_panics scenario.fs_empty example.mixed
           (map_to_list (Config.Config example.mixed)) "ghost").
  - right. reflexivity.
  - apply not_elem_of_empty.
  - apply elem_of_map_to_list. vm_compute; reflexivity.
Defined.

Lemma SaveFile_unrecognised_witness :
  (∃ fs', SaveFile scenario.fs_empty example.other_empty [] =
            (fs', scenario.store "/etc/other.cfg" Json ∅, Ret None) ∧
          os.files fs' !! "/etc/other.cfg"%string
            = Some ("{}" +:+ String bufio.LF EmptyString)%string) ∧
  SaveFile scenario.fs_empty example.other_full []
    = ((os.Create scenario.fs_empty "/etc/other.cfg").1,
       scenario.store "/etc/other.cfg" Json (Config.Config example.other_full),
       Ret (Some (ErrJSON "unsupported"))).
Proof.
  split.
  - apply (proj1 (proj2 (SaveFile_unrecognised scenario.fs_empty example.other_empty []
             ltac:(discriminate) ltac:(discriminate) ltac:(apply not_elem_of_empty)))
             "{}"%string).
    + vm_compute; reflexivity.
    + apply Nat.leb_le. vm_compute; reflexivity.
  - apply (proj1 (SaveFile_unrecognised scenario.fs_empty example.other_full []
             ltac:(discriminate) ltac:(discriminate) ltac:(apply not_elem_of_empty))
             (ErrJSON "unsupported")).
    vm_compute; reflexivity.
Defined.



End examples.
